(** * Login and MFA flow of IRIS (app/blueprints/login/login_routes.py)

    A shallow embedding of the request handlers of the login blueprint:
    [_retrieve_user_by_username], [_authenticate_ldap],
    [_authenticate_password], [login], [wrap_login_user], [mfa_setup] and
    [mfa_verify].

    The handlers read and write ambient state (the Flask session, the
    logged-in user of flask-login, the user table, the audit sink) and can
    raise.  They are embedded as computations of a state-and-exception
    monad in which a raised exception keeps the state reached so far, as a
    Python exception keeps the mutations made before it. *)

From stdpp Require Import base option strings gmap list pretty.
From Stdlib Require Import ZArith Ascii String Lia.

Open Scope Z_scope.

(* ================================================================== *)
(** * Python values and strings *)
(* ================================================================== *)

Module Py.

(** Python strings are modelled as [string]: a sequence of bytes, a
    non-ASCII code point being its UTF-8 bytes (all of them above 127). *)

Fixpoint find (c : ascii) (s : string) : option nat :=
  match s with
  | EmptyString => None
  | String d s' => if Ascii.eqb d c then Some 0%nat else S <$> find c s'
  end.

Fixpoint take (n : nat) (s : string) : string :=
  match n, s with
  | S n', String c s' => String c (take n' s')
  | _, _ => EmptyString
  end.

Fixpoint drop (n : nat) (s : string) : string :=
  match n, s with
  | S n', String _ s' => drop n' s'
  | _, _ => s
  end.

Fixpoint all (p : ascii -> bool) (s : string) : bool :=
  match s with
  | EmptyString => true
  | String c s' => p c && all p s'
  end.

Fixpoint filter (p : ascii -> bool) (s : string) : string :=
  match s with
  | EmptyString => EmptyString
  | String c s' => if p c then String c (filter p s') else filter p s'
  end.

(** [c in s] for a character [c]. *)
Definition mem (c : ascii) (s : string) : bool :=
  match find c s with Some _ => true | None => false end.

(** [sub in s] for strings. *)
Fixpoint contains (sub s : string) : bool :=
  String.prefix sub s ||
  match s with
  | EmptyString => false
  | String _ s' => contains sub s'
  end.

(** Truthiness of a string, and of a value that is a string or [None]. *)
Definition truthy (s : string) : bool := negb (String.eqb s "").

Definition not_ (o : option string) : bool :=
  match o with
  | None => true
  | Some s => negb (truthy s)
  end.

(** [str(x)] for an integer or [None]. *)
Definition str (o : option Z) : string :=
  match o with
  | None => "None"
  | Some z => pretty z
  end.

End Py.

(* ================================================================== *)
(** * Exceptions *)
(* ================================================================== *)

(** The exceptions the handlers meet.  All of them are subclasses of
    Python's [Exception], so [except Exception] catches each one. *)
Inductive exn : Type :=
  | AttributeError (obj attr : string)
  | ValueError (msg : string)
  | BuildError (endpoint : string)  (* werkzeug.routing: no such endpoint *)
  | RecursionError
  | Exception (msg : string).      (* any other error, e.g. of the LDAP client *)

(** [e.__str__()] *)
Definition exn_str (e : exn) : string :=
  match e with
  | AttributeError obj attr =>
      "'" +:+ obj +:+ "' object has no attribute '" +:+ attr +:+ "'"
  | ValueError msg => msg
  | BuildError endpoint =>
      "Could not build url for endpoint '" +:+ endpoint +:+ "'"
  | RecursionError => "maximum recursion depth exceeded"
  | Exception msg => msg
  end.

Inductive Outcome (A : Type) : Type :=
  | Ok (a : A)
  | Raise (e : exn).
Arguments Ok {A} a.
Arguments Raise {A} e.

(* ================================================================== *)
(** * urllib.parse.urlsplit *)
(* ================================================================== *)

(** The source imports [urlsplit] from Python's standard library and reads
    only the [netloc] field of its result.  The definitions below follow
    CPython's Lib/urllib/parse.py ([urlsplit] and [_splitnetloc]) for that
    field.  The validation CPython applies to a non-ASCII netloc
    ([_checknetloc]) and to a bracketed host ([_check_bracketed_netloc])
    depends on Unicode tables and on the interpreter's version: it is the
    parameter [checknetloc], and a netloc it rejects raises [ValueError]. *)
Module UrlSplit.

Definition code (c : ascii) : N := N_of_ascii c.

(** _WHATWG_C0_CONTROL_OR_SPACE: the characters 0x00 to 0x20. *)
Definition is_c0_control_or_space (c : ascii) : bool := (code c <=? 32)%N.

(** _UNSAFE_URL_BYTES_TO_REMOVE = ['\t', '\r', '\n'] *)
Definition is_unsafe_url_byte (c : ascii) : bool :=
  (code c =? 9)%N || (code c =? 13)%N || (code c =? 10)%N.

Definition is_ascii_alpha (c : ascii) : bool :=
  ((97 <=? code c) && (code c <=? 122))%N || ((65 <=? code c) && (code c <=? 90))%N.

Definition is_digit (c : ascii) : bool := ((48 <=? code c) && (code c <=? 57))%N.

(** scheme_chars: letters, digits and "+-." *)
Definition is_scheme_char (c : ascii) : bool :=
  is_ascii_alpha c || is_digit c || Py.mem c "+-.".

(** url.lstrip(_WHATWG_C0_CONTROL_OR_SPACE) *)
Fixpoint lstrip (url : string) : string :=
  match url with
  | String c url' => if is_c0_control_or_space c then lstrip url' else url
  | EmptyString => EmptyString
  end.

(** for b in _UNSAFE_URL_BYTES_TO_REMOVE: url = url.replace(b, "") *)
Definition remove_unsafe (url : string) : string :=
  Py.filter (fun c => negb (is_unsafe_url_byte c)) url.

(** [[
    i = url.find(':')
    if i > 0 and url[0].isascii() and url[0].isalpha():
        for c in url[:i]:
            if c not in scheme_chars: break
        else:
            scheme, url = url[:i].lower(), url[i+1:]
    ]]
    The result is the [url] left after the scheme, if any, was removed. *)
Definition strip_scheme (url : string) : string :=
  match Py.find ":" url, url with
  | Some (S i as n), String c0 _ =>
      if is_ascii_alpha c0 && Py.all is_scheme_char (Py.take n url)
      then Py.drop (S n) url
      else url
  | _, _ => url
  end.

(** [[
    def _splitnetloc(url, start=0):
        delim = len(url)
        for c in '/?#':
            wdelim = url.find(c, start)
            if wdelim >= 0: delim = min(delim, wdelim)
        return url[start:delim], url[delim:]
    ]]
    [rest] is [url[start:]]; the result is the first component. *)
Definition min_delim (delim : nat) (wdelim : option nat) : nat :=
  match wdelim with
  | Some w => Nat.min delim w
  | None => delim
  end.

Definition _splitnetloc (rest : string) : string :=
  let delim := String.length rest in
  let delim := min_delim delim (Py.find "/" rest) in
  let delim := min_delim delim (Py.find "?" rest) in
  let delim := min_delim delim (Py.find "#" rest) in
  Py.take delim rest.

(** The [netloc] of the URL left after the scheme: empty unless
    [url[:2] == '//']. *)
Definition netloc_of (url : string) : string :=
  if String.eqb (Py.take 2 url) "//" then _splitnetloc (Py.drop 2 url) else "".

(** [[
    if (('[' in netloc and ']' not in netloc) or
            (']' in netloc and '[' not in netloc)):
        raise ValueError("Invalid IPv6 URL")
    ]] *)
Definition unbalanced_brackets (netloc : string) : bool :=
  (Py.mem "[" netloc && negb (Py.mem "]" netloc)) ||
  (Py.mem "]" netloc && negb (Py.mem "[" netloc)).

(** The same prefix, read off character by character: [_splitnetloc]
    returns the longest prefix free of '/', '?' and '#'
    (lemma [_splitnetloc_until_delim]). *)
Definition is_delim (c : ascii) : bool :=
  Ascii.eqb c "/" || Ascii.eqb c "?" || Ascii.eqb c "#".

Fixpoint until_delim (s : string) : string :=
  match s with
  | EmptyString => EmptyString
  | String c s' => if is_delim c then EmptyString else String c (until_delim s')
  end.

(** [urlsplit(url).netloc] *)
Definition netloc (checknetloc : string -> bool) (url : string) : Outcome string :=
  let url := lstrip url in
  let url := remove_unsafe url in
  let url := strip_scheme url in
  let netloc := netloc_of url in
  if unbalanced_brackets netloc then Raise (ValueError "Invalid IPv6 URL")
  else if negb (checknetloc netloc) then Raise (ValueError "netloc contains invalid characters")
  else Ok netloc.

End UrlSplit.

(* ================================================================== *)
(** * Data model *)
(* ================================================================== *)

(** A row of the user table, with the attributes the handlers touch.
    [user] is the login name, as in the source ([user.user]). *)
Record User : Type := mkUser {
  user : string;
  password : string;
  is_service_account : bool;
  active : bool;
  mfa_secrets : option string;
  mfa_enabled : bool;
  email : string;
  ctx_case : option Z;
  ctx_human_case : option string
}.

Definition set_ctx (cid : Z) (cname : string) (u : User) : User :=
  mkUser (user u) (password u) (is_service_account u) (active u)
         (mfa_secrets u) (mfa_enabled u) (email u) (Some cid) (Some cname).

Definition set_mfa_secrets (s : string) (u : User) : User :=
  mkUser (user u) (password u) (is_service_account u) (active u)
         (Some s) (mfa_enabled u) (email u) (ctx_case u) (ctx_human_case u).

Definition set_mfa_enabled (b : bool) (u : User) : User :=
  mkUser (user u) (password u) (is_service_account u) (active u)
         (mfa_secrets u) b (email u) (ctx_case u) (ctx_human_case u).

(** A row of the [Cases] table. *)
Record Case : Type := mkCase {
  case_id : Z;
  name : string
}.

(** The value stored under [session['current_case']]. *)
Record CurrentCase : Type := mkCurrentCase {
  cc_case_name : option string;
  cc_case_info : string;
  cc_case_id : option Z
}.

(** The Flask session, restricted to the keys this module reads or writes.
    [None] is an absent key. *)
Record Session : Type := mkSession {
  sess_username : option string;        (* session['username'] *)
  sess_mfa_verified : option bool;      (* session['mfa_verified'] *)
  sess_permissions : option Z;          (* session['permissions'] *)
  sess_current_case : option CurrentCase (* session['current_case'] *)
}.

Definition empty_session : Session := mkSession None None None None.

(** [LoginForm(request.form)] and [MFASetupForm()], as far as the handlers
    look at them. *)
Record LoginForm : Type := mkLoginForm {
  form_username : string;     (* request.form.get('username', '') *)
  form_password : string;     (* request.form.get('password', '') *)
  is_submitted : bool;        (* form.is_submitted() *)
  validate : bool             (* form.validate() *)
}.

Record MFASetupForm : Type := mkMFASetupForm {
  mfa_submit : bool;          (* form.submit() *)
  mfa_validate : bool;        (* form.validate() *)
  token : option string       (* form.token.data *)
}.

Record Request : Type := mkRequest {
  args_next : option string;  (* request.args.get('next') *)
  login_form : LoginForm;
  mfa_form : MFASetupForm
}.

(** What is recorded by [track_activity]; every call of the module passes
    [ctx_less=True, display_in_ui=False]. *)
Inductive Activity : Type :=
  | act_unknown_user (username : string)
  | act_ldap_wrong_fallback (username : string)
  | act_ldap_wrong (username : string)
  | act_local_wrong (username : string)
  | act_logged_in (who : string)
  | act_mfa_setup_successful (who : string)
  | act_mfa_required (who : string)
  | act_mfa_verified (who : string)
  | act_mfa_invalid (who : string).

(** The message handed to [track_activity]. *)
Definition activity_message (a : Activity) : string :=
  match a with
  | act_unknown_user n =>
      "someone tried to log in with user '" +:+ n +:+ "', which does not exist"
  | act_ldap_wrong_fallback n =>
      "wrong login password for user '" +:+ n +:+
      "' using LDAP auth - falling back to local based on settings"
  | act_ldap_wrong n =>
      "wrong login password for user '" +:+ n +:+ "' using LDAP auth"
  | act_local_wrong n =>
      "wrong login password for user '" +:+ n +:+ "' using local auth"
  | act_logged_in w => "user '" +:+ w +:+ "' successfully logged-in"
  | act_mfa_setup_successful w => "MFA setup successful for user " +:+ w
  | act_mfa_required w => "MFA required but not enabled for user " +:+ w
  | act_mfa_verified w => "MFA verified for user " +:+ w
  | act_mfa_invalid w => "MFA invalid for user " +:+ w +:+ ". Login aborted"
  end.

(** The calls the handlers make to their collaborators, in order. *)
Inductive Event : Type :=
  | ev_ldap_authenticate (username : string)
  | ev_get_active_user_by_login (username : string)
  | ev_check_password_hash (username : string)
  | ev_track_activity (a : Activity)
  | ev_log_error (msg : string)
  | ev_login_user (username : string)
  | ev_commit (u : User)
  | ev_flash (msg category : string).

(** Where a redirect goes: [url_for(endpoint, cid=...)] or a literal URL. *)
Inductive Target : Type :=
  | url_for (endpoint : string) (cid : option Z)
  | url (s : string).

Inductive Response : Type :=
  | redirect (t : Target)
  | render_login (form : LoginForm) (msg : option string)   (* login.html *)
  | render_mfa_setup (secret : option string) (mail : string) (* mfa_setup.html *)
  | render_mfa_verify                                       (* mfa_verify.html *)
  | unauthorized.                                           (* @login_required *)

(** The state the handlers share.  [users] is the user table, keyed by
    login name; [current_user] is flask-login's logged-in user, a reference
    into that table ([None]: anonymous); [trace] is the chronological
    record of collaborator calls. *)
Record State : Type := mkState {
  session : Session;
  session_permanent : bool;
  current_user : option string;
  users : gmap string User;
  cases : list Case;
  trace : list Event
}.

(** The collaborators and configuration the module is given. *)
Record Env : Type := mkEnv {
  (* app.iris_engine.access_control.ldap_handler.ldap_authenticate *)
  ldap_authenticate : string -> string -> Outcome bool;
  (* bc.check_password_hash (hash, password) *)
  check_password_hash : string -> string -> bool;
  (* ac_get_effective_permissions_of_user *)
  ac_get_effective_permissions_of_user : User -> Z;
  (* pyotp.TOTP(secret).verify(token), at the time of the request *)
  totp_verify : option string -> option string -> bool;
  (* pyotp.random_base32() *)
  random_base32 : string;
  (* str(user), for "...".format(user) *)
  str_user : User -> string;
  (* current_user.user while nobody is logged in: the attribute of the login
     manager's anonymous user, or None when that object has no such
     attribute (flask-login's AnonymousUserMixin has none) and the read
     raises AttributeError *)
  anonymous_user : option string;
  (* is_authentication_ldap() *)
  is_authentication_ldap : bool;
  (* app.config.get('AUTHENTICATION_LOCAL_FALLBACK') *)
  AUTHENTICATION_LOCAL_FALLBACK : option bool;
  (* urlsplit's validation of the netloc, see UrlSplit *)
  checknetloc : string -> bool
}.

(* ================================================================== *)
(** * The monad of handlers *)
(* ================================================================== *)

Definition M (A : Type) : Type := State -> Outcome A * State.

#[global] Instance M_ret : MRet M := fun A a st => (Ok a, st).

#[global] Instance M_bind : MBind M := fun A B f m st =>
  match m st with
  | (Ok a, st') => f a st'
  | (Raise e, st') => (Raise e, st')
  end.

Definition raise {A : Type} (e : exn) : M A := fun st => (Raise e, st).

(** [try: body except Exception as e: handler(e)] *)
Definition try_except {A : Type} (body : M A) (handler : exn -> M A) : M A :=
  fun st =>
    match body st with
    | (Ok a, st') => (Ok a, st')
    | (Raise e, st') => handler e st'
    end.

Definition gets {A : Type} (f : State -> A) : M A := fun st => (Ok (f st), st).

Definition modify (f : State -> State) : M unit := fun st => (Ok tt, f st).

Definition lift {A : Type} (o : Outcome A) : M A := fun st => (o, st).

Definition with_session (f : Session -> Session) (st : State) : State :=
  mkState (f (session st)) (session_permanent st) (current_user st)
          (users st) (cases st) (trace st).

Definition with_users (f : gmap string User -> gmap string User) (st : State) : State :=
  mkState (session st) (session_permanent st) (current_user st)
          (f (users st)) (cases st) (trace st).

Definition emit (e : Event) (st : State) : State :=
  mkState (session st) (session_permanent st) (current_user st)
          (users st) (cases st) (trace st ++ [e]).

(** session[key] = value, session.pop(key, None) *)
Definition set_username (v : option string) (s : Session) : Session :=
  mkSession v (sess_mfa_verified s) (sess_permissions s) (sess_current_case s).

Definition set_mfa_verified (v : option bool) (s : Session) : Session :=
  mkSession (sess_username s) v (sess_permissions s) (sess_current_case s).

Definition set_permissions (v : option Z) (s : Session) : Session :=
  mkSession (sess_username s) (sess_mfa_verified s) v (sess_current_case s).

Definition set_current_case (v : option CurrentCase) (s : Session) : Session :=
  mkSession (sess_username s) (sess_mfa_verified s) (sess_permissions s) v.

(** track_activity(msg, ctx_less=True, display_in_ui=False) *)
Definition track_activity (a : Activity) : M unit := modify (emit (ev_track_activity a)).

(** log.error(msg) *)
Definition log_error (msg : string) : M unit := modify (emit (ev_log_error msg)).

(** flash(msg, category) *)
Definition flash (msg category : string) : M unit := modify (emit (ev_flash msg category)).

(** flask_login.login_user(user): [current_user] becomes [user]. *)
Definition login_user (u : User) : M unit :=
  modify (fun st =>
    emit (ev_login_user (user u))
      (mkState (session st) (session_permanent st) (Some (user u))
               (users st) (cases st) (trace st))).

(** db.session.commit() after attributes of [u] were assigned: the row of
    [u] now holds them. *)
Definition db_commit (u : User) : M unit :=
  modify (fun st => emit (ev_commit u) (with_users (insert (user u) u) st)).

(** The object behind the [current_user] proxy. *)
Definition current_user_obj (st : State) : option User :=
  match current_user st with
  | Some k => users st !! k
  | None => None
  end.

(** Modelled from the spec: [get_active_user_by_login], of
    app/datamgmt/manage/manage_users_db.py, is the user-store lookup by
    login name returning active users only. *)
Definition lookup_active (username : string) (st : State) : option User :=
  match users st !! username with
  | Some u => if active u then Some u else None
  | None => None
  end.

Definition get_active_user_by_login (username : string) : M (option User) :=
  modify (emit (ev_get_active_user_by_login username)) ;;
  gets (lookup_active username).

(** Cases.query.order_by(Cases.case_id).first() *)
Fixpoint order_by_case_id_first (l : list Case) : option Case :=
  match l with
  | [] => None
  | c :: l' =>
      match order_by_case_id_first l' with
      | None => Some c
      | Some m => if case_id c <=? case_id m then Some c else Some m
      end
  end.

(** Reading attribute [attr] of [None]. *)
Definition none_has_no {A : Type} (attr : string) : M A :=
  raise (AttributeError "NoneType" attr).

(* ================================================================== *)
(** * The handlers *)
(* ================================================================== *)

Definition wrong_credentials : string := "Wrong credentials. Please try again.".

Definition ldap_unavailable : string :=
  "LDAP authentication unavailable. Check server logs".

Section Handlers.

Context (env : Env).

(** [[
    def _retrieve_user_by_username(username):
        user = get_active_user_by_login(username)
        if not user:
            track_activity("someone tried to log in with user '{}', which does not exist"...)
        return user
    ]] *)
Definition _retrieve_user_by_username (username : string) : M (option User) :=
  u ← get_active_user_by_login username;
  match u with
  | None => track_activity (act_unknown_user username) ;; mret u
  | Some _ => mret u
  end.

(** [_render_template_login(form, msg)]: the login page with [msg]. *)
Definition _render_template_login (form : LoginForm) (msg : option string) : M Response :=
  mret (render_login form msg).

(** [current_user.user], read while a message is formatted. *)
Definition current_user_user : M string :=
  cu ← gets current_user_obj;
  match cu with
  | Some u => mret (user u)
  | None =>
      match anonymous_user env with
      | Some s => mret s
      | None => raise (AttributeError "AnonymousUserMixin" "user")
      end
  end.

(** ["mfa_verified" not in session or session["mfa_verified"] is False] *)
Definition mfa_not_verified (s : Session) : bool :=
  match sess_mfa_verified s with
  | None => true
  | Some b => negb b
  end.

(** Lines 152-156 of [wrap_login_user]:
    [[
    if caseid is None:
        case = Cases.query.order_by(Cases.case_id).first()
        user.ctx_case = case.case_id
        user.ctx_human_case = case.name
        db.session.commit()
    ]]
    The result is [user] as it is after these lines. *)
Definition resolve_case (u : User) : M User :=
  match ctx_case u with
  | None =>
      case ← gets (fun st => order_by_case_id_first (cases st));
      match case with
      | None => none_has_no "case_id"            (* case.case_id *)
      | Some case =>
          let u := set_ctx (case_id case) (name case) u in
          db_commit u ;;
          mret u
      end
  | Some _ => mret u
  end.

(** Lines 166-171 of [wrap_login_user]:
    [[
    next_url = None
    if request.args.get('next'):
        next_url = request.args.get('next') if 'cid=' in request.args.get('next') \
                   else request.args.get('next') + '?cid=' + str(user.ctx_case)
    if not next_url or urlsplit(next_url).netloc != '':
        next_url = url_for('index.index', cid=user.ctx_case)
    ]] *)
Definition requested_next_url (req : Request) (u : User) : option string :=
  match args_next req with
  | Some next =>
      if Py.truthy next
      then Some (if Py.contains "cid=" next then next
                 else next +:+ "?cid=" +:+ Py.str (ctx_case u))
      else None
  | None => None
  end.

Definition redirect_target (req : Request) (u : User) : M Target :=
  let next_url := requested_next_url req u in
  match next_url with
  | Some next_url' =>
      if Py.not_ next_url then mret (url_for "index.index" (ctx_case u))
      else
        netloc ← lift (UrlSplit.netloc (checknetloc env) next_url');
        if negb (String.eqb netloc "")
        then mret (url_for "index.index" (ctx_case u))
        else mret (url next_url')
  | None => mret (url_for "index.index" (ctx_case u))
  end.

(** [wrap_login_user(user)] *)
Definition wrap_login_user (req : Request) (u : User) : M Response :=
  modify (with_session (set_username (Some (user u)))) ;;
  s ← gets session;
  if mfa_not_verified s then mret (redirect (url_for "mfa_verify" None))
  else
    login_user u ;;
    track_activity (act_logged_in (user u)) ;;
    modify (with_session
              (set_permissions (Some (ac_get_effective_permissions_of_user env u)))) ;;
    u ← resolve_case u;
    modify (with_session
              (set_current_case
                 (Some (mkCurrentCase (ctx_human_case u) "" (ctx_case u))))) ;;
    track_activity (act_logged_in (str_user env u)) ;;
    next_url ← redirect_target req u;
    mret (redirect next_url).

(** [wrap_login_user(user)] as [mfa_setup] calls it (l.192): there [user] is
    the [current_user] proxy of l.179, not a row.  The proxy reads through
    to the row of the logged-in user, so l.141-144 run as in
    [wrap_login_user].  Past the gate, [login_user(user)] makes the proxy
    itself the logged-in user, so that it stands for itself, and the
    [user.user] of l.148 raises RecursionError. *)
Definition wrap_login_user_proxy (u : User) : M Response :=
  modify (with_session (set_username (Some (user u)))) ;;
  s ← gets session;
  if mfa_not_verified s then mret (redirect (url_for "mfa_verify" None))
  else
    login_user u ;;
    raise RecursionError.

(** [_authenticate_password(form, username, password)] *)
Definition _authenticate_password (req : Request) (form : LoginForm)
    (username password_ : string) : M Response :=
  u ← _retrieve_user_by_username username;
  match u with
  | None => _render_template_login form (Some wrong_credentials)
  | Some u =>
      if is_service_account u
      then _render_template_login form (Some wrong_credentials)
      else
        modify (emit (ev_check_password_hash username)) ;;
        if check_password_hash env (password u) password_
        then wrap_login_user req u
        else
          track_activity (act_local_wrong username) ;;
          _render_template_login form (Some wrong_credentials)
  end.

(** The body of the [try] of [_authenticate_ldap]. *)
Definition _authenticate_ldap_body (req : Request) (form : LoginForm)
    (username password_ : string) (local_fallback : option bool) : M Response :=
  modify (emit (ev_ldap_authenticate username)) ;;
  ok ← lift (ldap_authenticate env username password_);
  if negb ok
  then
    match local_fallback with
    | Some true =>
        track_activity (act_ldap_wrong_fallback username) ;;
        _authenticate_password req form username password_
    | _ =>
        track_activity (act_ldap_wrong username) ;;
        _render_template_login form (Some wrong_credentials)
    end
  else
    u ← _retrieve_user_by_username username;
    match u with
    | None => _render_template_login form (Some wrong_credentials)
    | Some u => wrap_login_user req u
    end.

(** [[
    def _authenticate_ldap(form, username, password, local_fallback=True):
        try:
            ...
        except Exception as e:
            log.error(e.__str__())
            return _render_template_login(form, 'LDAP authentication unavailable. Check server logs')
    ]] *)
Definition _authenticate_ldap (req : Request) (form : LoginForm)
    (username password_ : string) (local_fallback : option bool) : M Response :=
  try_except
    (_authenticate_ldap_body req form username password_ local_fallback)
    (fun e =>
       log_error (exn_str e) ;;
       _render_template_login form (Some ldap_unavailable)).

(** [login()], the handler of /login *)
Definition login (req : Request) : M Response :=
  modify (fun st => mkState (session st) true (current_user st)
                            (users st) (cases st) (trace st)) ;;
  cu ← gets current_user_obj;
  match cu with
  | Some _ => mret (redirect (url_for "index.index" None))
  | None =>
      let form := login_form req in
      if negb (is_submitted form) && negb (validate form)
      then _render_template_login form None
      else
        let username := form_username form in
        let password_ := form_password form in
        if is_authentication_ldap env
        then _authenticate_ldap req form username password_
                                (AUTHENTICATION_LOCAL_FALLBACK env)
        else _authenticate_password req form username password_
  end.

(** The end of [mfa_setup]: the enrollment page, whose image is computed
    from the user's secret and e-mail address. *)
Definition render_enrollment (u : User) : M Response :=
  mret (render_mfa_setup (mfa_secrets u) (email u)).

(** [mfa_setup()], the handler of /auth/mfa-setup, under [@login_required] *)
Definition mfa_setup (req : Request) : M Response :=
  cu ← gets current_user_obj;
  match cu with
  | None => mret unauthorized
  | Some u =>
      let form := mfa_form req in
      if mfa_submit form && mfa_validate form
      then
        u ← (if Py.not_ (mfa_secrets u)
             then let u := set_mfa_secrets (random_base32 env) u in
                  db_commit u ;; mret u
             else mret u);
        if totp_verify env (mfa_secrets u) (token form)
        then
          let u := set_mfa_enabled true u in
          db_commit u ;;
          who ← current_user_user;
          track_activity (act_mfa_setup_successful who) ;;
          wrap_login_user_proxy u
        else
          flash "Invalid token. Please try again." "danger" ;;
          render_enrollment u
      else render_enrollment u
  end.

(** [mfa_verify()], the handler of /auth/mfa-verify.  The [url_for('login')]
    of l.208 names an endpoint that does not exist: this file registers the
    login view on the blueprint 'login' (l.50-54, 116-117), that is as
    'login.login', so building the URL raises BuildError. *)
Definition mfa_verify (req : Request) : M Response :=
  s ← gets session;
  match sess_username s with
  | None => raise (BuildError "login")
  | Some username =>
      modify (with_session (set_mfa_verified (Some false))) ;;
      u ← _retrieve_user_by_username username;
      match u with
      | None => none_has_no "mfa_secrets"        (* user.mfa_secrets *)
      | Some u =>
          if Py.not_ (mfa_secrets u)
          then
            who ← current_user_user;
            track_activity (act_mfa_required who) ;;
            login_user u ;;
            mret (redirect (url_for "mfa_setup" None))
          else
            let form := mfa_form req in
            if mfa_submit form && mfa_validate form
            then
              if Py.not_ (token form)
              then flash "Token is required." "danger" ;; mret render_mfa_verify
              else
                if totp_verify env (mfa_secrets u) (token form)
                then
                  modify (with_session (set_username None)) ;;
                  modify (with_session (set_mfa_verified (Some true))) ;;
                  who ← current_user_user;
                  track_activity (act_mfa_verified who) ;;
                  wrap_login_user req u
                else
                  who ← current_user_user;
                  track_activity (act_mfa_invalid who) ;;
                  flash "Invalid token. Please try again." "danger" ;;
                  mret render_mfa_verify
            else mret render_mfa_verify
      end
  end.

End Handlers.

(** The routes of the module. *)
Inductive Route : Type :=
  | route_login          (* /login *)
  | route_mfa_setup      (* /auth/mfa-setup *)
  | route_mfa_verify.    (* /auth/mfa-verify *)

Definition dispatch (env : Env) (r : Route) (req : Request) : M Response :=
  match r with
  | route_login => login env req
  | route_mfa_setup => mfa_setup env req
  | route_mfa_verify => mfa_verify env req
  end.

(** The case id that lines 149-156 of [wrap_login_user] leave in
    [user.ctx_case]: the one the user has, or else that of the first case
    in the order of case ids. *)
Definition resolved_case_id (u : User) (st : State) : option Z :=
  match ctx_case u with
  | Some k => Some k
  | None => case_id <$> order_by_case_id_first (cases st)
  end.

(** A submitted token that [mfa_verify] accepts for the pending user [u]. *)
Definition token_accepted (env : Env) (req : Request) (u : User) : bool :=
  mfa_submit (mfa_form req) && mfa_validate (mfa_form req) &&
  negb (Py.not_ (mfa_secrets u)) && negb (Py.not_ (token (mfa_form req))) &&
  totp_verify env (mfa_secrets u) (token (mfa_form req)).

Definition is_login_user (e : Event) : bool :=
  match e with ev_login_user _ => true | _ => false end.

Definition is_logged_in_activity (e : Event) : bool :=
  match e with ev_track_activity (act_logged_in _) => true | _ => false end.

(** The state in which lines 149-156 of [wrap_login_user] run: the user
    is logged in, the first audit entry is written and the permissions are
    cached. *)
Definition st_logged_in (env : Env) (u : User) (st : State) : State :=
  with_session (set_permissions (Some (ac_get_effective_permissions_of_user env u)))
    (emit (ev_track_activity (act_logged_in (user u)))
       (emit (ev_login_user (user u))
          (mkState (set_username (Some (user u)) (session st)) (session_permanent st)
                   (Some (user u)) (users st) (cases st) (trace st)))).

(** The state in which the redirect target is computed, [u] being the user
    and [st1] the state after lines 149-156. *)
Definition st_finalized (env : Env) (u : User) (st1 : State) : State :=
  emit (ev_track_activity (act_logged_in (str_user env u)))
    (with_session
       (set_current_case (Some (mkCurrentCase (ctx_human_case u) "" (ctx_case u))))
       st1).

(** flask-login's current user is a row whose login name is [n]. *)
Definition logged_in_as (n : string) (st : State) : Prop :=
  exists x, current_user_obj st = Some x /\ user x = n.

(** The request [req] on route [r] completes MFA: it is a submission to
    /auth/mfa-verify whose token is accepted for the pending user. *)
Definition mfa_completes (env : Env) (r : Route) (req : Request) (st : State) : bool :=
  match r, sess_username (session st) with
  | route_mfa_verify, Some username =>
      match lookup_active username st with
      | Some u => token_accepted env req u
      | None => false
      end
  | _, _ => false
  end.

(** The request on route [r] reaches /auth/mfa-verify for a pending user
    who has no MFA secret. *)
Definition mfa_not_provisioned (r : Route) (st : State) : bool :=
  match r, sess_username (session st) with
  | route_mfa_verify, Some username =>
      match lookup_active username st with
      | Some u => Py.not_ (mfa_secrets u)
      | None => false
      end
  | _, _ => false
  end.

(** From [st] to [st'] the trace only grew, no successful login was
    audited, the marker of [st'] is unset or false, and [login_user] was
    not called unless [may_login]. *)
Definition still_pending (may_login : bool) (st st' : State) : Prop :=
  exists new,
    trace st' = trace st ++ new /\
    existsb is_logged_in_activity new = false /\
    (may_login = false -> existsb is_login_user new = false) /\
    mfa_not_verified (session st') = true.

(** Serving a sequence of requests, one after the other. *)
Fixpoint serve (env : Env) (reqs : list (Route * Request)) (st : State) : State :=
  match reqs with
  | [] => st
  | (r, req) :: reqs' => serve env reqs' (snd (dispatch env r req st))
  end.

(** None of the requests completes MFA, each taken in the state it is
    served in. *)
Fixpoint none_completes (env : Env) (reqs : list (Route * Request)) (st : State) : bool :=
  match reqs with
  | [] => true
  | (r, req) :: reqs' =>
      negb (mfa_completes env r req st) &&
      none_completes env reqs' (snd (dispatch env r req st))
  end.

(** One of the requests reaches /auth/mfa-verify for a pending user
    without an MFA secret. *)
Fixpoint some_not_provisioned (env : Env) (reqs : list (Route * Request)) (st : State) : bool :=
  match reqs with
  | [] => false
  | (r, req) :: reqs' =>
      mfa_not_provisioned r st ||
      some_not_provisioned env reqs' (snd (dispatch env r req st))
  end.

(** The state of [mfa_verify] after lines 227-228, [username] being the
    pending user whose token verified: the marker was reset at entry, the
    user was looked up, the user name was popped and the marker set. *)
Definition st_token_verified (username : string) (st : State) : State :=
  with_session (set_mfa_verified (Some true))
    (with_session (set_username None)
       (emit (ev_get_active_user_by_login username)
          (with_session (set_mfa_verified (Some false)) st))).

(** The user [mfa_setup] hands to [wrap_login_user] when the submitted
    token verifies, and the state it does so in: a secret was generated
    and committed if there was none, [mfa_enabled] was set and committed,
    and the success was audited. *)
Definition with_secret (env : Env) (u : User) : User :=
  if Py.not_ (mfa_secrets u) then set_mfa_secrets (random_base32 env) u else u.

Definition enrolled (env : Env) (u : User) : User :=
  set_mfa_enabled true (with_secret env u).

Definition st_secret (env : Env) (u : User) (st : State) : State :=
  if Py.not_ (mfa_secrets u)
  then emit (ev_commit (with_secret env u))
         (with_users (insert (user u) (with_secret env u)) st)
  else st.

Definition st_enrolled (env : Env) (u : User) (st : State) : State :=
  emit (ev_track_activity (act_mfa_setup_successful (user u)))
    (emit (ev_commit (enrolled env u))
       (with_users (insert (user u) (enrolled env u)) (st_secret env u st))).

(** Calls of the directory and checks of a local password hash. *)
Definition is_ldap_call (e : Event) : bool :=
  match e with ev_ldap_authenticate _ => true | _ => false end.

Definition is_hash_check (e : Event) : bool :=
  match e with ev_check_password_hash _ => true | _ => false end.

(** From [st] to [st'] the trace grew by events that all satisfy [ok]. *)
Definition appended (ok : Event -> bool) (st st' : State) : Prop :=
  exists new, trace st' = trace st ++ new /\ forallb ok new = true.

(* ================================================================== *)
(** * Concrete environments and states *)
(* ================================================================== *)

Module Demo.

(** A verifier accepting one token for any provisioned secret. *)
Definition totp (secret tok : option string) : bool :=
  match secret, tok with
  | Some s, Some t => Py.truthy s && String.eqb t "492039"
  | _, _ => false
  end.

Definition env (ldap : Outcome bool) (anon : option string)
    (ldap_mode : bool) (fallback : option bool) : Env :=
  mkEnv (fun _ _ => ldap) String.eqb (fun _ => 0) totp "JBSWY3DPEHPK3PXP"
        (fun u => "<User " +:+ user u +:+ ">") anon ldap_mode fallback
        (fun _ => true).

(** Local authentication, flask-login's default anonymous user. *)
Definition local_env : Env := env (Ok false) None false None.

(** alice is enrolled in MFA and has no case context yet; bob has one;
    carol has no MFA secret yet. *)
Definition alice : User :=
  mkUser "alice" "hash-a" false true (Some "JBSWY3DPEHPK3PXP") true
         "alice@example.org" None None.

Definition bob : User :=
  mkUser "bob" "hash-b" false true (Some "GEZDGNBVGY3TQOJQ") false
         "bob@example.org" (Some 5) (Some "five").

Definition carol : User :=
  mkUser "carol" "hash-c" false true None false "carol@example.org" None None.

Definition user_table : gmap string User :=
  <["alice" := alice]> (<["bob" := bob]> (<["carol" := carol]> ∅)).

Definition two_cases : list Case := [mkCase 7 "seven"; mkCase 3 "three"].

(** A session whose MFA marker is set, and a new session. *)
Definition st_verified (cs : list Case) : State :=
  mkState (mkSession None (Some true) None None) true None user_table cs [].

Definition st_fresh (cs : list Case) : State :=
  mkState empty_session false None user_table cs [].

(** [name] is waiting for its second factor, optionally logged in. *)
Definition st_pending (name : string) (logged_in : option string) : State :=
  mkState (mkSession (Some name) (Some false) None None) true logged_in
          user_table two_cases [].

Definition request (next : option string) (username pw : string)
    (tok : option string) : Request :=
  mkRequest next (mkLoginForm username pw true true) (mkMFASetupForm true true tok).

End Demo.

(** More users: a service account and a deactivated user; and an
    environment whose hash check looks at the length of the password only,
    so that two passwords can be told apart by no verifier. *)
Module DemoMore.

Definition svc : User :=
  mkUser "svc" "hash-s" true true None false "svc@example.org"
         (Some 5) (Some "five").

Definition dormant : User :=
  mkUser "dormant" "hash-d" false false None false "dormant@example.org"
         None None.

Definition user_table : gmap string User :=
  <["svc" := svc]> (<["dormant" := dormant]> Demo.user_table).

Definition st_fresh : State :=
  mkState empty_session false None user_table Demo.two_cases [].

Definition st_verified : State :=
  mkState (mkSession None (Some true) None None) false None user_table
          Demo.two_cases [].

Definition length_env (ldap_mode : bool) (fallback : option bool) : Env :=
  mkEnv (fun _ _ => Ok false)
        (fun h p => Nat.eqb (String.length h) (String.length p))
        (fun _ => 0) Demo.totp "JBSWY3DPEHPK3PXP"
        (fun u => "<User " +:+ user u +:+ ">") None ldap_mode fallback
        (fun _ => true).

End DemoMore.

(* ================================================================== *)
(** * Facts about strings and [urlsplit] *)
(* ================================================================== *)

Section StringFacts.

Lemma append_nil s : "" +:+ s = s.
Proof. reflexivity. Qed.

Lemma append_cons c s t : String c s +:+ t = String c (s +:+ t).
Proof. reflexivity. Qed.

Lemma find_lt c s i : Py.find c s = Some i -> (i < String.length s)%nat.
Proof.
  revert i. induction s as [|d s IH]; intros i; simpl; [done|].
  destruct (Ascii.eqb d c).
  - intros [= <-]. lia.
  - destruct (Py.find c s) as [j|]; simpl; [|done].
    intros [= <-]. specialize (IH j eq_refl). lia.
Qed.

Lemma find_app_Some c s x i : Py.find c s = Some i -> Py.find c (s +:+ x) = Some i.
Proof.
  revert i. induction s as [|d s IH]; intros i; rewrite ?append_cons; simpl; [done|].
  destruct (Ascii.eqb d c); [done|].
  destruct (Py.find c s) as [j|]; simpl; [|done].
  intros [= <-]. by rewrite (IH j eq_refl).
Qed.

Lemma find_app_None c s x :
  Py.find c s = None ->
  Py.find c (s +:+ x) = (fun j => (String.length s + j)%nat) <$> Py.find c x.
Proof.
  induction s as [|d s IH]; rewrite ?append_nil, ?append_cons; simpl.
  - intros _. by destruct (Py.find c x).
  - destruct (Ascii.eqb d c); [done|].
    destruct (Py.find c s) as [j|]; simpl; [done|].
    intros _. rewrite IH by done. by destruct (Py.find c x).
Qed.

Lemma take_app_le n s x : (n <= String.length s)%nat -> Py.take n (s +:+ x) = Py.take n s.
Proof.
  revert n. induction s as [|d s IH]; intros [|n];
    rewrite ?append_nil, ?append_cons; simpl; try done; try lia.
  - intros Hn. f_equal. apply IH. lia.
Qed.

Lemma drop_app_le n s x :
  (n <= String.length s)%nat -> Py.drop n (s +:+ x) = Py.drop n s +:+ x.
Proof.
  revert n. induction s as [|d s IH]; intros [|n];
    rewrite ?append_nil, ?append_cons; simpl; try done; try lia.
  intros Hn. apply IH. lia.
Qed.

Lemma all_take_app_false p n s c t :
  (String.length s < n)%nat -> p c = false ->
  Py.all p (Py.take n (s +:+ String c t)) = false.
Proof.
  revert n. induction s as [|d s IH]; intros [|n];
    rewrite ?append_nil, ?append_cons; simpl; try lia.
  - intros _ ->. done.
  - intros Hn Hc. rewrite IH by (done || lia). apply andb_false_r.
Qed.

Lemma filter_app p s x : Py.filter p (s +:+ x) = Py.filter p s +:+ Py.filter p x.
Proof.
  induction s as [|d s IH]; rewrite ?append_nil, ?append_cons; simpl; [done|].
  destruct (p d); rewrite ?append_cons; by rewrite IH.
Qed.

End StringFacts.

Section UrlSplitFacts.

Import UrlSplit.

(** The suffix ['?' + t] is what [wrap_login_user] appends. *)
Lemma lstrip_app_query s t : lstrip (s +:+ String "?" t) = lstrip s +:+ String "?" t.
Proof.
  induction s as [|d s IH]; rewrite ?append_nil, ?append_cons; simpl; [done|].
  destruct (is_c0_control_or_space d); [apply IH | done].
Qed.

Lemma remove_unsafe_app_query s t :
  remove_unsafe (s +:+ String "?" t) = remove_unsafe s +:+ String "?" (remove_unsafe t).
Proof. unfold remove_unsafe. by rewrite filter_app. Qed.

Lemma strip_scheme_app_query s t :
  strip_scheme (s +:+ String "?" t) = strip_scheme s +:+ String "?" t.
Proof.
  unfold strip_scheme.
  destruct (Py.find ":" s) as [i|] eqn:Hf.
  - rewrite (find_app_Some _ _ _ _ Hf).
    pose proof (find_lt _ _ _ Hf) as Hlt.
    destruct i as [|i]; [done|].
    destruct s as [|c0 s]; [done|].
    rewrite take_app_le by lia.
    rewrite append_cons at 1. 
    destruct (is_ascii_alpha c0 && Py.all is_scheme_char (Py.take (S i) (String c0 s))); [|done].
    rewrite drop_app_le by lia. done.
  - rewrite (find_app_None _ _ _ Hf).
    simpl Py.find. change (Ascii.eqb "?" ":") with false.
    destruct (Py.find ":" t) as [j|]; simpl; [|done].
    destruct s as [|c0 s]; rewrite ?append_nil, ?append_cons; simpl.
    + done.
    + replace (Py.all is_scheme_char (Py.take (String.length s + S j) (s +:+ String "?" t)))
        with false; [by rewrite !andb_false_r|].
      symmetry. apply all_take_app_false; [lia | done].
Qed.

Lemma min_delim_S d o : min_delim (S d) (S <$> o) = S (min_delim d o).
Proof. by destruct o. Qed.

Lemma min_delim_0_l o : min_delim 0 o = 0%nat.
Proof. by destruct o. Qed.

Lemma min_delim_0_r d : min_delim d (Some 0%nat) = 0%nat.
Proof. apply Nat.min_0_r. Qed.

Lemma _splitnetloc_until_delim s : _splitnetloc s = until_delim s.
Proof.
  unfold _splitnetloc. induction s as [|c s IH]; [done|].
  cbn [Py.find until_delim String.length]. unfold is_delim.
  destruct (Ascii.eqb c "/").
  { by rewrite min_delim_0_r, !min_delim_0_l. }
  destruct (Ascii.eqb c "?").
  { by rewrite min_delim_0_r, !min_delim_0_l. }
  destruct (Ascii.eqb c "#").
  { by rewrite min_delim_0_r. }
  cbn [orb]. rewrite !min_delim_S. cbn [Py.take]. by rewrite IH.
Qed.

Lemma until_delim_app_query s t : until_delim (s +:+ String "?" t) = until_delim s.
Proof.
  induction s as [|c s IH]; rewrite ?append_nil, ?append_cons; simpl; [done|].
  destruct (is_delim c); [done | by rewrite IH].
Qed.

Lemma netloc_of_app_query s t : netloc_of (s +:+ String "?" t) = netloc_of s.
Proof.
  unfold netloc_of.
  destruct s as [|a [|b s]]; rewrite ?append_nil, ?append_cons; simpl.
  - done.
  - by destruct (Ascii.eqb a "/").
  - destruct (Ascii.eqb a "/"); [|done].
    destruct (Ascii.eqb b "/"); [|done].
    by rewrite !_splitnetloc_until_delim, until_delim_app_query.
Qed.

(** Appending a query string to a URL leaves its netloc as it was. *)
Lemma netloc_app_query chk s t :
  netloc chk (s +:+ String "?" t) = netloc chk s.
Proof.
  unfold netloc.
  by rewrite lstrip_app_query, remove_unsafe_app_query,
       strip_scheme_app_query, netloc_of_app_query.
Qed.

End UrlSplitFacts.

Example activity_message_logged_in :
  activity_message (act_logged_in "alice") = "user 'alice' successfully logged-in".
Proof. reflexivity. Qed.

Example netloc_evil :
  UrlSplit.netloc (fun _ => true) "http://evil.example/x" = Ok "evil.example".
Proof. reflexivity. Qed.

Example netloc_relative :
  UrlSplit.netloc (fun _ => true) "/cases?cid=5" = Ok "".
Proof. reflexivity. Qed.

Example netloc_protocol_relative :
  UrlSplit.netloc (fun _ => true) "//evil.example?x" = Ok "evil.example".
Proof. reflexivity. Qed.

Example netloc_bad_bracket :
  UrlSplit.netloc (fun _ => true) "//[evil/x" = Raise (ValueError "Invalid IPv6 URL").
Proof. reflexivity. Qed.

(* ================================================================== *)
(** * Running a handler *)
(* ================================================================== *)

(** Unfolds the monad so that a handler applied to a state computes. *)
Ltac run :=
  unfold mbind, M_bind, mret, M_ret, modify, gets, lift, raise, none_has_no,
    try_except, track_activity, log_error, flash, login_user, db_commit,
    get_active_user_by_login, _render_template_login, render_enrollment;
  simpl.

Lemma truthy_app s t : Py.truthy s = true -> Py.truthy (s +:+ t) = true.
Proof. by destruct s. Qed.

Lemma trace_emit e st : trace (emit e st) = trace st ++ [e].
Proof. reflexivity. Qed.

Section WrapLoginUser.

Context (env : Env).

(** With the marker unset or false, [wrap_login_user] only records the
    pending user name and sends the browser to /auth/mfa-verify. *)
Lemma wrap_login_user_gate req u st :
  mfa_not_verified (session st) = true ->
  wrap_login_user env req u st =
    (Ok (redirect (url_for "mfa_verify" None)),
     with_session (set_username (Some (user u))) st).
Proof.
  intros Hg. unfold wrap_login_user. run.
  change (mfa_not_verified _) with (mfa_not_verified (session st)).
  by rewrite Hg.
Qed.

Lemma marker_true_not_gated s :
  sess_mfa_verified s = Some true -> mfa_not_verified s = false.
Proof. unfold mfa_not_verified. by intros ->. Qed.

Lemma wrap_login_user_unfold req u st :
  mfa_not_verified (session st) = false ->
  wrap_login_user env req u st =
    match resolve_case u (st_logged_in env u st) with
    | (Ok u', st1) =>
        match redirect_target env req u' (st_finalized env u' st1) with
        | (Ok t, st2) => (Ok (redirect t), st2)
        | (Raise e, st2) => (Raise e, st2)
        end
    | (Raise e, st1) => (Raise e, st1)
    end.
Proof.
  intros Hg. unfold wrap_login_user. run.
  change (mfa_not_verified _) with (mfa_not_verified (session st)).
  rewrite Hg. reflexivity.
Qed.


Lemma order_by_case_id_first_nonempty l :
  l <> [] -> exists c, order_by_case_id_first l = Some c.
Proof.
  destruct l as [|c l]; [done|]. intros _. simpl.
  destruct (order_by_case_id_first l) as [m|]; [|by eexists].
  destruct (case_id c <=? case_id m); by eexists.
Qed.

Lemma order_by_case_id_first_lowest l c :
  order_by_case_id_first l = Some c ->
  c ∈ l /\ forall c', c' ∈ l -> case_id c <= case_id c'.
Proof.
  revert c. induction l as [|d l IH]; intros c; simpl; [done|].
  destruct (order_by_case_id_first l) as [m|] eqn:Hm.
  - destruct (IH m eq_refl) as [Hin Hle].
    destruct (Z.leb_spec (case_id d) (case_id m)); intros [= <-].
    + split; [left|]. intros c' [->|Hc']%elem_of_cons; [lia|].
      specialize (Hle c' Hc'). lia.
    + split; [by right|]. intros c' [->|Hc']%elem_of_cons; [lia|].
      by apply Hle.
  - intros [= <-]. destruct l as [|d' l]; [|simpl in Hm;
      destruct (order_by_case_id_first l) as [m|]; [destruct (_ <=? _)|]; done].
    split; [left|]. intros c' [->|Hc']%elem_of_cons; [lia|].
    by apply elem_of_nil in Hc'.
Qed.

Lemma resolve_case_set u st k :
  ctx_case u = Some k -> resolve_case u st = (Ok u, st).
Proof. intros H. unfold resolve_case. by rewrite H. Qed.

Lemma resolve_case_first u st c :
  ctx_case u = None -> order_by_case_id_first (cases st) = Some c ->
  resolve_case u st =
    (Ok (set_ctx (case_id c) (name c) u),
     emit (ev_commit (set_ctx (case_id c) (name c) u))
       (with_users (insert (user u) (set_ctx (case_id c) (name c) u)) st)).
Proof. intros H Hc. unfold resolve_case. rewrite H. run. by rewrite Hc. Qed.

Lemma resolve_case_no_case u st :
  ctx_case u = None -> cases st = [] ->
  resolve_case u st = (Raise (AttributeError "NoneType" "case_id"), st).
Proof. intros H Hc. unfold resolve_case. rewrite H. run. by rewrite Hc. Qed.

Lemma redirect_target_next req u st next cid :
  args_next req = Some next -> Py.truthy next = true -> ctx_case u = Some cid ->
  redirect_target env req u st =
    match UrlSplit.netloc (checknetloc env) next with
    | Ok nl =>
        (Ok (if negb (String.eqb nl "") then url_for "index.index" (Some cid)
             else url (if Py.contains "cid=" next then next
                       else next +:+ "?cid=" +:+ pretty cid)), st)
    | Raise e => (Raise e, st)
    end.
Proof.
  intros Hn Ht Hc. unfold redirect_target, requested_next_url.
  rewrite Hn, Ht, Hc. simpl Py.str. unfold Py.not_.
  destruct (Py.contains "cid=" next).
  - rewrite Ht. run. destruct (UrlSplit.netloc _ next) as [nl|e]; [|done].
    by destruct (negb _).
  - rewrite (truthy_app _ _ Ht). run.
    change ("?cid=" +:+ pretty cid) with (String "?" ("cid=" +:+ pretty cid)).
    rewrite netloc_app_query.
    destruct (UrlSplit.netloc _ next) as [nl|e]; [|done].
    by destruct (negb _).
Qed.

End WrapLoginUser.

Section Finalization.

Context (env : Env).

Lemma netloc_raise chk s e :
  UrlSplit.netloc chk s = Raise e -> exists m, e = ValueError m.
Proof.
  unfold UrlSplit.netloc.
  destruct (UrlSplit.unbalanced_brackets _); [intros [= <-]; by eexists|].
  destruct (negb _); [intros [= <-]; by eexists | done].
Qed.

Lemma redirect_target_state req u st : snd (redirect_target env req u st) = st.
Proof.
  unfold redirect_target. destruct (requested_next_url req u) as [n|]; [|done].
  destruct (Py.not_ (Some n)); [done|]. run.
  destruct (UrlSplit.netloc _ n) as [nl|e]; [|done]. by destruct (negb _).
Qed.


(** The state [wrap_login_user] leaves once the marker let it pass. *)
Lemma wrap_login_user_state req u st :
  mfa_not_verified (session st) = false ->
  snd (wrap_login_user env req u st) =
    match resolve_case u (st_logged_in env u st) with
    | (Ok u', st1) => st_finalized env u' st1
    | (Raise _, st1) => st1
    end.
Proof.
  intros Hg. rewrite wrap_login_user_unfold by done.
  destruct (resolve_case u _) as [[u'|e] st1]; [|done].
  pose proof (redirect_target_state req u' (st_finalized env u' st1)) as Hs.
  by destruct (redirect_target env req u' _) as [[t|e] st2].
Qed.

(** The response of a finalization for which a [next] URL was requested. *)
Lemma wrap_login_user_next req u st next cid :
  sess_mfa_verified (session st) = Some true ->
  args_next req = Some next -> Py.truthy next = true ->
  resolved_case_id u st = Some cid ->
  fst (wrap_login_user env req u st) =
    match UrlSplit.netloc (checknetloc env) next with
    | Ok nl =>
        Ok (redirect
              (if negb (String.eqb nl "") then url_for "index.index" (Some cid)
               else url (if Py.contains "cid=" next then next
                         else next +:+ "?cid=" +:+ pretty cid)))
    | Raise e => Raise e
    end.
Proof.
  intros Hm Hn Ht Hr.
  rewrite wrap_login_user_unfold by by apply marker_true_not_gated.
  unfold resolved_case_id in Hr.
  destruct (ctx_case u) as [k|] eqn:Hk.
  - injection Hr as ->.
    rewrite (resolve_case_set _ _ _ Hk).
    rewrite (redirect_target_next env _ _ _ _ _ Hn Ht Hk).
    by destruct (UrlSplit.netloc _ next).
  - destruct (order_by_case_id_first (cases st)) as [c|] eqn:Hc; [|done].
    injection Hr as <-.
    rewrite (resolve_case_first u (st_logged_in env u st) c Hk Hc).
    rewrite (redirect_target_next env req (set_ctx (case_id c) (name c) u) _ next (case_id c) Hn Ht eq_refl).
    by destruct (UrlSplit.netloc _ next).
Qed.

End Finalization.

(** Where [urlsplit] returns.  At the finalization of a login for which a
    non-empty [next] URL was requested, [cid] being the case id resolved for
    the user: if [urlsplit] finds a netloc in [next], the redirect goes to
    [url_for('index.index', cid=cid)]; if it finds none and [next] contains
    "cid=", the redirect goes to [next] unchanged; if it finds none and
    [next] has no "cid=", the redirect goes to [next + '?cid=' + str(cid)]. *)
Lemma wrap_login_user_redirect_guard env req u st next cid :
  sess_mfa_verified (session st) = Some true ->
  args_next req = Some next -> Py.truthy next = true ->
  resolved_case_id u st = Some cid ->
  (forall nl, UrlSplit.netloc (checknetloc env) next = Ok nl -> nl <> "" ->
     fst (wrap_login_user env req u st)
     = Ok (redirect (url_for "index.index" (Some cid)))) /\
  (UrlSplit.netloc (checknetloc env) next = Ok "" ->
   Py.contains "cid=" next = true ->
     fst (wrap_login_user env req u st) = Ok (redirect (url next))) /\
  (UrlSplit.netloc (checknetloc env) next = Ok "" ->
   Py.contains "cid=" next = false ->
     fst (wrap_login_user env req u st)
     = Ok (redirect (url (next +:+ "?cid=" +:+ pretty cid)))).
Proof.
  intros Hm Hn Ht Hr.
  rewrite (wrap_login_user_next env req u st next cid Hm Hn Ht Hr).
  repeat split.
  - intros nl -> Hnl. destruct (String.eqb_spec nl ""); done.
  - by intros -> ->.
  - by intros -> ->.
Qed.

Lemma wrap_login_user_redirect_guard_witness :
  fst (wrap_login_user Demo.local_env
         (Demo.request (Some "http://evil.example/x") "alice" "hash-a" None)
         Demo.alice (Demo.st_verified Demo.two_cases))
  = Ok (redirect (url_for "index.index" (Some 3))) /\
  fst (wrap_login_user Demo.local_env
         (Demo.request (Some "/cases?cid=5") "alice" "hash-a" None)
         Demo.alice (Demo.st_verified Demo.two_cases))
  = Ok (redirect (url "/cases?cid=5")) /\
  fst (wrap_login_user Demo.local_env
         (Demo.request (Some "/cases") "bob" "hash-b" None)
         Demo.bob (Demo.st_verified Demo.two_cases))
  = Ok (redirect (url "/cases?cid=5")).
Proof.
  split; [|split].
  - apply (proj1 (wrap_login_user_redirect_guard Demo.local_env
             (Demo.request (Some "http://evil.example/x") "alice" "hash-a" None)
             Demo.alice (Demo.st_verified Demo.two_cases)
             "http://evil.example/x" 3 eq_refl eq_refl eq_refl eq_refl)
             "evil.example"); [reflexivity | discriminate].
  - apply (proj1 (proj2 (wrap_login_user_redirect_guard Demo.local_env
             (Demo.request (Some "/cases?cid=5") "alice" "hash-a" None)
             Demo.alice (Demo.st_verified Demo.two_cases)
             "/cases?cid=5" 3 eq_refl eq_refl eq_refl eq_refl)));
      reflexivity.
  - apply (proj2 (proj2 (wrap_login_user_redirect_guard Demo.local_env
             (Demo.request (Some "/cases") "bob" "hash-b" None)
             Demo.bob (Demo.st_verified Demo.two_cases)
             "/cases" 5 eq_refl eq_refl eq_refl eq_refl)));
      reflexivity.
Defined.

(** The suffix is the same whatever [next] holds, a query string
    included. *)
Example wrap_login_user_next_with_query :
  fst (wrap_login_user Demo.local_env
         (Demo.request (Some "/cases?page=2") "bob" "hash-b" None)
         Demo.bob (Demo.st_verified Demo.two_cases))
  = Ok (redirect (url "/cases?page=2?cid=5")).
Proof. reflexivity. Qed.

(** A [next] URL that [urlsplit] rejects makes the finalization raise. *)
Example wrap_login_user_next_rejected :
  fst (wrap_login_user Demo.local_env
         (Demo.request (Some "//[evil.example/x") "bob" "hash-b" None)
         Demo.bob (Demo.st_verified Demo.two_cases))
  = Raise (ValueError "Invalid IPv6 URL").
Proof. reflexivity. Qed.

(** C2. At finalization, a user whose case id is unset is given, when a
    case exists, the case with the lowest case id: the assignment is
    written to the user's row, the session's current-case descriptor holds
    it, and a later finalization of the stored row keeps it; a user whose
    case id is set keeps it, and the row is not written. *)
Theorem wrap_login_user_case_context env req u st :
  sess_mfa_verified (session st) = Some true ->
  let st' := snd (wrap_login_user env req u st) in
  (ctx_case u = None -> cases st <> [] ->
   exists c,
     c ∈ cases st /\ (forall c', c' ∈ cases st -> case_id c <= case_id c') /\
     users st' !! user u = Some (set_ctx (case_id c) (name c) u) /\
     sess_current_case (session st')
       = Some (mkCurrentCase (Some (name c)) "" (Some (case_id c))) /\
     forall req2 st2,
       sess_mfa_verified (session st2) = Some true ->
       let st2' :=
         snd (wrap_login_user env req2 (set_ctx (case_id c) (name c) u) st2) in
       sess_current_case (session st2')
         = Some (mkCurrentCase (Some (name c)) "" (Some (case_id c))) /\
       users st2' = users st2) /\
  (forall k, ctx_case u = Some k ->
     users st' = users st /\
     sess_current_case (session st')
       = Some (mkCurrentCase (ctx_human_case u) "" (Some k))).
Proof.
  intros Hm st'.
  assert (Hset : forall req1 u1 st1 k,
             sess_mfa_verified (session st1) = Some true -> ctx_case u1 = Some k ->
             users (snd (wrap_login_user env req1 u1 st1)) = users st1 /\
             sess_current_case (session (snd (wrap_login_user env req1 u1 st1)))
               = Some (mkCurrentCase (ctx_human_case u1) "" (Some k))).
  { intros req1 u1 st1 k Hm1 Hk.
    rewrite wrap_login_user_state by by apply marker_true_not_gated.
    rewrite (resolve_case_set _ _ _ Hk). simpl. by rewrite Hk. }
  split; [|intros k Hk; by apply Hset].
  intros Hk Hcs.
  destruct (order_by_case_id_first_nonempty _ Hcs) as [c Hc].
  destruct (order_by_case_id_first_lowest _ _ Hc) as [Hin Hlow].
  exists c. split; [done|]. split; [done|].
  subst st'. rewrite wrap_login_user_state by by apply marker_true_not_gated.
  rewrite (resolve_case_first u (st_logged_in env u st) c Hk Hc). simpl.
  split; [apply lookup_insert_eq|]. split; [done|].
  intros req2 st2 Hm2.
  destruct (Hset req2 (set_ctx (case_id c) (name c) u) st2 (case_id c) Hm2 eq_refl).
  done.
Qed.

Lemma wrap_login_user_case_context_witness :
  (exists c,
     c ∈ Demo.two_cases /\
     (forall c', c' ∈ Demo.two_cases -> case_id c <= case_id c') /\
     users (snd (wrap_login_user Demo.local_env
                   (Demo.request None "alice" "hash-a" None)
                   Demo.alice (Demo.st_verified Demo.two_cases)))
       !! "alice" = Some (set_ctx (case_id c) (name c) Demo.alice)) /\
  sess_current_case
    (session (snd (wrap_login_user Demo.local_env
                     (Demo.request None "bob" "hash-b" None)
                     Demo.bob (Demo.st_verified Demo.two_cases))))
  = Some (mkCurrentCase (Some "five") "" (Some 5)).
Proof.
  pose proof (wrap_login_user_case_context Demo.local_env
                (Demo.request None "alice" "hash-a" None)
                Demo.alice (Demo.st_verified Demo.two_cases) eq_refl) as [Ha _].
  pose proof (wrap_login_user_case_context Demo.local_env
                (Demo.request None "bob" "hash-b" None)
                Demo.bob (Demo.st_verified Demo.two_cases) eq_refl) as [_ Hb].
  split.
  - destruct (Ha eq_refl) as (c & Hin & Hlow & Hrow & _); [discriminate|].
    exists c. repeat split; assumption.
  - exact (proj2 (Hb 5 eq_refl)).
Defined.

Example wrap_login_user_two_cases :
  users (snd (wrap_login_user Demo.local_env
                (Demo.request None "alice" "hash-a" None)
                Demo.alice (Demo.st_verified Demo.two_cases))) !! "alice"
  = Some (set_ctx 3 "three" Demo.alice).
Proof. vm_compute. reflexivity. Qed.

Lemma pair_of_fst {A B : Type} (p : A * B) (a : A) : fst p = a -> p = (a, snd p).
Proof. destruct p. by intros <-. Qed.

Section Directory.

Context (env : Env).

(** What [_authenticate_ldap] makes of the outcome of its [try] body. *)
Lemma _authenticate_ldap_try req form username pw fb st :
  _authenticate_ldap env req form username pw fb st =
    match _authenticate_ldap_body env req form username pw fb st with
    | (Ok r, st') => (Ok r, st')
    | (Raise e, st') =>
        (Ok (render_login form (Some ldap_unavailable)),
         emit (ev_log_error (exn_str e)) st')
    end.
Proof. reflexivity. Qed.

Lemma _authenticate_ldap_body_fault req form username pw fb st e :
  ldap_authenticate env username pw = Raise e ->
  _authenticate_ldap_body env req form username pw fb st =
    (Raise e, emit (ev_ldap_authenticate username) st).
Proof. intros H. unfold _authenticate_ldap_body. run. by rewrite H. Qed.

Lemma _authenticate_ldap_body_fallback req form username pw st :
  ldap_authenticate env username pw = Ok false ->
  _authenticate_ldap_body env req form username pw (Some true) st =
    _authenticate_password env req form username pw
      (emit (ev_track_activity (act_ldap_wrong_fallback username))
         (emit (ev_ldap_authenticate username) st)).
Proof.
  intros H. unfold _authenticate_ldap_body. run. rewrite H. simpl.
  by destruct (_authenticate_password _ _ _ _ _ _) as [[r|e] st'].
Qed.

Lemma _authenticate_ldap_body_no_fallback req form username pw fb st :
  ldap_authenticate env username pw = Ok false -> fb <> Some true ->
  _authenticate_ldap_body env req form username pw fb st =
    (Ok (render_login form (Some wrong_credentials)),
     emit (ev_track_activity (act_ldap_wrong username))
       (emit (ev_ldap_authenticate username) st)).
Proof.
  intros H Hfb. unfold _authenticate_ldap_body. run. rewrite H. simpl.
  by destruct fb as [[|]|].
Qed.

Lemma _authenticate_ldap_body_success req form username pw fb st u :
  ldap_authenticate env username pw = Ok true ->
  lookup_active username st = Some u ->
  _authenticate_ldap_body env req form username pw fb st =
    wrap_login_user env req u
      (emit (ev_get_active_user_by_login username)
         (emit (ev_ldap_authenticate username) st)).
Proof.
  intros H Hu. unfold _authenticate_ldap_body, _retrieve_user_by_username. run.
  rewrite H. simpl.
  change (lookup_active username _) with (lookup_active username st).
  rewrite Hu.
  by destruct (wrap_login_user _ _ _ _) as [[r|e] st'].
Qed.

End Directory.




(** C3. When the directory call raises, [_authenticate_ldap] answers with
    the login page carrying the service-unavailable message, which is not
    the wrong-credentials message; the text of the fault goes to the
    server log and nowhere else: no audit entry, no flash, and the
    response is the same whatever the fault. *)
Theorem authenticate_ldap_directory_fault env req form username pw fb st e :
  ldap_authenticate env username pw = Raise e ->
  _authenticate_ldap env req form username pw fb st
  = (Ok (render_login form (Some ldap_unavailable)),
     emit (ev_log_error (exn_str e)) (emit (ev_ldap_authenticate username) st)) /\
  ldap_unavailable <> wrong_credentials.
Proof.
  intros H. split; [|done].
  rewrite _authenticate_ldap_try.
  by rewrite (_authenticate_ldap_body_fault env _ _ _ _ _ _ _ H).
Qed.

Lemma authenticate_ldap_directory_fault_witness :
  _authenticate_ldap
    (Demo.env (Raise (Exception "Can't contact LDAP server")) None true (Some true))
    (Demo.request None "alice" "hash-a" None)
    (mkLoginForm "alice" "hash-a" true true) "alice" "hash-a" (Some true)
    (Demo.st_fresh Demo.two_cases)
  = (Ok (render_login (mkLoginForm "alice" "hash-a" true true)
                      (Some "LDAP authentication unavailable. Check server logs")),
     mkState empty_session false None Demo.user_table Demo.two_cases
       [ev_ldap_authenticate "alice"; ev_log_error "Can't contact LDAP server"]).
Proof.
  exact (proj1 (authenticate_ldap_directory_fault
    (Demo.env (Raise (Exception "Can't contact LDAP server")) None true (Some true))
    (Demo.request None "alice" "hash-a" None)
    (mkLoginForm "alice" "hash-a" true true) "alice" "hash-a" (Some true)
    (Demo.st_fresh Demo.two_cases) (Exception "Can't contact LDAP server") eq_refl)).
Defined.

(** C4. When the directory reports a failed authentication: with the local
    fallback allowed, [_authenticate_ldap] records the fallback, runs
    [_authenticate_password] on the same user name and password and
    returns the response and the state (audit entries included) that it
    returns; with the fallback not allowed, it answers with the
    wrong-credentials page after one audit entry, and neither looks the
    user up nor checks a password hash. *)
Theorem authenticate_ldap_directory_failure env req form username pw fb st :
  ldap_authenticate env username pw = Ok false ->
  (fb = Some true ->
   forall r st',
     _authenticate_password env req form username pw
       (emit (ev_track_activity (act_ldap_wrong_fallback username))
          (emit (ev_ldap_authenticate username) st)) = (Ok r, st') ->
     _authenticate_ldap env req form username pw fb st = (Ok r, st')) /\
  (fb <> Some true ->
   _authenticate_ldap env req form username pw fb st
   = (Ok (render_login form (Some wrong_credentials)),
      emit (ev_track_activity (act_ldap_wrong username))
        (emit (ev_ldap_authenticate username) st)) /\
   trace (snd (_authenticate_ldap env req form username pw fb st))
   = trace st ++ [ev_ldap_authenticate username;
                  ev_track_activity (act_ldap_wrong username)]).
Proof.
  intros H. split.
  - intros -> r st' Hlocal.
    rewrite _authenticate_ldap_try, (_authenticate_ldap_body_fallback env) by done.
    by rewrite Hlocal.
  - intros Hfb.
    rewrite _authenticate_ldap_try,
      (_authenticate_ldap_body_no_fallback env) by done.
    split; [done|]. simpl. by rewrite <- app_assoc.
Qed.

Lemma authenticate_ldap_directory_failure_witness :
  fst (_authenticate_ldap (Demo.env (Ok false) None true (Some true))
         (Demo.request None "alice" "hash-a" None)
         (mkLoginForm "alice" "hash-a" true true) "alice" "hash-a" (Some true)
         (Demo.st_verified Demo.two_cases))
  = Ok (redirect (url_for "index.index" (Some 3))) /\
  _authenticate_ldap (Demo.env (Ok false) None true (Some false))
    (Demo.request None "alice" "hash-a" None)
    (mkLoginForm "alice" "hash-a" true true) "alice" "hash-a" (Some false)
    (Demo.st_fresh Demo.two_cases)
  = (Ok (render_login (mkLoginForm "alice" "hash-a" true true)
                      (Some "Wrong credentials. Please try again.")),
     mkState empty_session false None Demo.user_table Demo.two_cases
       [ev_ldap_authenticate "alice"; ev_track_activity (act_ldap_wrong "alice")]).
Proof.
  split.
  - rewrite (proj1 (authenticate_ldap_directory_failure
              (Demo.env (Ok false) None true (Some true))
              (Demo.request None "alice" "hash-a" None)
              (mkLoginForm "alice" "hash-a" true true) "alice" "hash-a" (Some true)
              (Demo.st_verified Demo.two_cases) eq_refl) eq_refl
              (redirect (url_for "index.index" (Some 3))) _
              (pair_of_fst _ _ eq_refl)).
    reflexivity.
  - refine (proj1 (proj2 (authenticate_ldap_directory_failure
              (Demo.env (Ok false) None true (Some false))
              (Demo.request None "alice" "hash-a" None)
              (mkLoginForm "alice" "hash-a" true true) "alice" "hash-a" (Some false)
              (Demo.st_fresh Demo.two_cases) eq_refl) _)).
    discriminate.
Defined.

(** C10. The handler of [_authenticate_ldap] covers its whole body: the
    function never raises; whatever the body raises, be it in the
    local-fallback path or in [wrap_login_user] after a successful
    directory authentication, is logged and answered with the
    service-unavailable login page.  So is the fault of a finalization
    with no case. *)
Theorem authenticate_ldap_catches_all env req form username pw fb st :
  (exists r st', _authenticate_ldap env req form username pw fb st = (Ok r, st')) /\
  (forall e st1,
     ldap_authenticate env username pw = Ok false -> fb = Some true ->
     _authenticate_password env req form username pw
       (emit (ev_track_activity (act_ldap_wrong_fallback username))
          (emit (ev_ldap_authenticate username) st)) = (Raise e, st1) ->
     _authenticate_ldap env req form username pw fb st
     = (Ok (render_login form (Some ldap_unavailable)),
        emit (ev_log_error (exn_str e)) st1)) /\
  (forall u e st1,
     ldap_authenticate env username pw = Ok true ->
     lookup_active username st = Some u ->
     wrap_login_user env req u
       (emit (ev_get_active_user_by_login username)
          (emit (ev_ldap_authenticate username) st)) = (Raise e, st1) ->
     _authenticate_ldap env req form username pw fb st
     = (Ok (render_login form (Some ldap_unavailable)),
        emit (ev_log_error (exn_str e)) st1)) /\
  (forall u,
     ldap_authenticate env username pw = Ok true ->
     lookup_active username st = Some u ->
     sess_mfa_verified (session st) = Some true ->
     ctx_case u = None -> cases st = [] ->
     fst (_authenticate_ldap env req form username pw fb st)
     = Ok (render_login form (Some ldap_unavailable)) /\
     last (trace (snd (_authenticate_ldap env req form username pw fb st)))
     = Some (ev_log_error "'NoneType' object has no attribute 'case_id'")).
Proof.
  split; [|split; [|split]].
  - rewrite _authenticate_ldap_try.
    destruct (_authenticate_ldap_body _ _ _ _ _ _ _) as [[r|e] st']; by eauto.
  - intros e st1 H -> Hl.
    by rewrite _authenticate_ldap_try, (_authenticate_ldap_body_fallback env), Hl.
  - intros u e st1 H Hu Hw.
    by rewrite _authenticate_ldap_try,
         (_authenticate_ldap_body_success env _ _ _ _ _ _ u), Hw.
  - intros u H Hu Hm Hk Hcs.
    rewrite _authenticate_ldap_try,
      (_authenticate_ldap_body_success env _ _ _ _ _ _ u) by done.
    rewrite wrap_login_user_unfold by by apply marker_true_not_gated.
    rewrite resolve_case_no_case by done. simpl.
    split; [done|]. by rewrite last_snoc.
Qed.

Lemma authenticate_ldap_catches_all_witness :
  fst (_authenticate_ldap (Demo.env (Ok true) None true (Some true))
         (Demo.request None "alice" "hash-a" None)
         (mkLoginForm "alice" "hash-a" true true) "alice" "hash-a" (Some true)
         (Demo.st_verified []))
  = Ok (render_login (mkLoginForm "alice" "hash-a" true true)
                     (Some "LDAP authentication unavailable. Check server logs")) /\
  fst (_authenticate_ldap (Demo.env (Ok false) None true (Some true))
         (Demo.request None "alice" "hash-a" None)
         (mkLoginForm "alice" "hash-a" true true) "alice" "hash-a" (Some true)
         (Demo.st_verified []))
  = Ok (render_login (mkLoginForm "alice" "hash-a" true true)
                     (Some "LDAP authentication unavailable. Check server logs")).
Proof.
  split.
  - refine (proj1 (proj2 (proj2 (proj2 (authenticate_ldap_catches_all
              (Demo.env (Ok true) None true (Some true))
              (Demo.request None "alice" "hash-a" None)
              (mkLoginForm "alice" "hash-a" true true) "alice" "hash-a" (Some true)
              (Demo.st_verified [])))) Demo.alice _ _ _ _ _)); reflexivity.
  - rewrite (proj1 (proj2 (authenticate_ldap_catches_all
              (Demo.env (Ok false) None true (Some true))
              (Demo.request None "alice" "hash-a" None)
              (mkLoginForm "alice" "hash-a" true true) "alice" "hash-a" (Some true)
              (Demo.st_verified [])))
              (AttributeError "NoneType" "case_id") _ eq_refl eq_refl
              (pair_of_fst _ _ eq_refl)).
    reflexivity.
Defined.

Section MfaVerify.

Context (env : Env).

(** The state in which [mfa_verify] looks at the pending user. *)
Lemma _retrieve_user_by_username_found username st u :
  lookup_active username st = Some u ->
  _retrieve_user_by_username username st =
    (Ok (Some u), emit (ev_get_active_user_by_login username) st).
Proof.
  intros H. unfold _retrieve_user_by_username. run.
  change (lookup_active username _) with (lookup_active username st).
  by rewrite H.
Qed.

Lemma _retrieve_user_by_username_unknown username st :
  lookup_active username st = None ->
  _retrieve_user_by_username username st =
    (Ok None, emit (ev_track_activity (act_unknown_user username))
                (emit (ev_get_active_user_by_login username) st)).
Proof.
  intros H. unfold _retrieve_user_by_username. run.
  change (lookup_active username _) with (lookup_active username st).
  by rewrite H.
Qed.

Lemma mfa_verify_no_username req st :
  sess_username (session st) = None ->
  mfa_verify env req st = (Raise (BuildError "login"), st).
Proof. intros H. unfold mfa_verify. run. by rewrite H. Qed.

Lemma mfa_verify_unknown req st username :
  sess_username (session st) = Some username ->
  lookup_active username st = None ->
  mfa_verify env req st =
    (Raise (AttributeError "NoneType" "mfa_secrets"),
     emit (ev_track_activity (act_unknown_user username))
       (emit (ev_get_active_user_by_login username)
          (with_session (set_mfa_verified (Some false)) st))).
Proof.
  intros H Hu. unfold mfa_verify. run. rewrite H.
  unfold mbind, M_bind.
  rewrite _retrieve_user_by_username_unknown by done. reflexivity.
Qed.

Lemma mfa_verify_accepted req st username u :
  sess_username (session st) = Some username ->
  lookup_active username st = Some u ->
  token_accepted env req u = true ->
  mfa_verify env req st =
    let st1 :=
      with_session (set_mfa_verified (Some true))
        (with_session (set_username None)
           (emit (ev_get_active_user_by_login username)
              (with_session (set_mfa_verified (Some false)) st))) in
    match current_user_user env st1 with
    | (Ok who, _) =>
        wrap_login_user env req u (emit (ev_track_activity (act_mfa_verified who)) st1)
    | (Raise e, _) => (Raise e, st1)
    end.
Proof.
  intros H Hu Ht. unfold token_accepted in Ht.
  apply andb_prop in Ht as [Ht Htotp]. apply andb_prop in Ht as [Ht Htok].
  apply andb_prop in Ht as [Hform Hsec].
  apply negb_true_iff in Hsec, Htok.
  unfold mfa_verify. run. rewrite H. unfold mbind, M_bind.
  rewrite (_retrieve_user_by_username_found _ _ u) by done.
  rewrite Hsec, Hform, Htok, Htotp.
  unfold current_user_user. run.
  match goal with |- context [current_user_obj ?s] =>
    destruct (current_user_obj s) as [x|] end.
  - by destruct (wrap_login_user _ _ _ _) as [[r|e] st'].
  - destruct (anonymous_user env) as [a|]; [|done].
    by destruct (wrap_login_user _ _ _ _) as [[r|e] st'].
Qed.

(** Finalization writes the user name back into the session. *)
Lemma wrap_login_user_sets_username req u st :
  sess_username (session (snd (wrap_login_user env req u st))) = Some (user u).
Proof.
  destruct (mfa_not_verified (session st)) eqn:Hg.
  - by rewrite wrap_login_user_gate.
  - rewrite wrap_login_user_state by done.
    unfold resolve_case. destruct (ctx_case u); [done|]. run.
    by destruct (order_by_case_id_first _).
Qed.

End MfaVerify.

(** C9. When the session holds a pending user name that no active user
    has, [mfa_verify] raises on reading [user.mfa_secrets] of [None]: the
    guard of l.207 is not taken, it covers the absent user name only.
    (Taken, the guard does not reach the login entry point either: its
    [url_for('login')] raises.) *)
Theorem mfa_verify_stale_username env req st username :
  sess_username (session st) = Some username ->
  lookup_active username st = None ->
  mfa_verify env req st
  = (Raise (AttributeError "NoneType" "mfa_secrets"),
     emit (ev_track_activity (act_unknown_user username))
       (emit (ev_get_active_user_by_login username)
          (with_session (set_mfa_verified (Some false)) st))) /\
  forall st0,
    sess_username (session st0) = None ->
    mfa_verify env req st0 = (Raise (BuildError "login"), st0).
Proof.
  intros H Hu. split; [by apply mfa_verify_unknown|].
  intros st0 H0. by apply mfa_verify_no_username.
Qed.

Lemma mfa_verify_stale_username_witness :
  fst (mfa_verify Demo.local_env (Demo.request None "" "" (Some "492039"))
         (Demo.st_pending "dave" None))
  = Raise (AttributeError "NoneType" "mfa_secrets").
Proof.
  exact (f_equal fst (proj1 (mfa_verify_stale_username Demo.local_env
           (Demo.request None "" "" (Some "492039"))
           (Demo.st_pending "dave" None) "dave" eq_refl eq_refl))).
Defined.

(** The state in which an accepted token leaves [mfa_verify] before the
    audit entry: the pending user name is removed from the session and the
    marker is true; [wrap_login_user] runs on that state after the audit
    entry, and if formatting the entry raises, the handler stops in it. *)
Lemma mfa_verify_token_verified env req st username u :
  sess_username (session st) = Some username ->
  lookup_active username st = Some u ->
  token_accepted env req u = true ->
  let st1 := st_token_verified username st in
  sess_username (session st1) = None /\
  sess_mfa_verified (session st1) = Some true /\
  match current_user_user env st1 with
  | (Ok who, _) =>
      mfa_verify env req st =
        wrap_login_user env req u
          (emit (ev_track_activity (act_mfa_verified who)) st1)
  | (Raise e, _) => mfa_verify env req st = (Raise e, st1)
  end.
Proof.
  intros H Hu Ht st1.
  split; [done|]. split; [done|].
  rewrite (mfa_verify_accepted env req st username u H Hu Ht). cbv zeta.
  fold (st_token_verified username st). fold st1.
  by destruct (current_user_user env st1) as [[who|e] s].
Qed.

Lemma mfa_verify_token_verified_witness :
  sess_username
    (session (st_token_verified "alice" (Demo.st_pending "alice" (Some "alice"))))
  = None /\
  sess_mfa_verified
    (session (st_token_verified "alice" (Demo.st_pending "alice" (Some "alice"))))
  = Some true /\
  mfa_verify Demo.local_env (Demo.request None "" "" (Some "492039"))
    (Demo.st_pending "alice" (Some "alice"))
  = wrap_login_user Demo.local_env (Demo.request None "" "" (Some "492039"))
      Demo.alice
      (emit (ev_track_activity (act_mfa_verified "alice"))
         (st_token_verified "alice" (Demo.st_pending "alice" (Some "alice")))).
Proof.
  exact (mfa_verify_token_verified Demo.local_env
           (Demo.request None "" "" (Some "492039"))
           (Demo.st_pending "alice" (Some "alice")) "alice" Demo.alice
           eq_refl eq_refl eq_refl).
Defined.

Section MfaSetup.

Context (env : Env).

Lemma current_user_user_logged_in n st :
  logged_in_as n st -> current_user_user env st = (Ok n, st).
Proof.
  intros (x & Hx & <-). unfold current_user_user. run. by rewrite Hx.
Qed.

Lemma logged_in_as_commit n st u' :
  logged_in_as n st -> user u' = n ->
  logged_in_as n (emit (ev_commit u') (with_users (insert (user u') u') st)).
Proof.
  intros (x & Hx & Hn) Hu. unfold logged_in_as, current_user_obj in *. simpl.
  destruct (current_user st) as [k|]; [|done].
  destruct (decide (user u' = k)) as [->|Hne].
  - exists u'. by rewrite lookup_insert_eq.
  - exists x. by rewrite lookup_insert_ne.
Qed.

Lemma with_secret_user u : user (with_secret env u) = user u.
Proof. unfold with_secret. by destruct (Py.not_ _). Qed.

Lemma logged_in_as_st_secret u st :
  logged_in_as (user u) st -> logged_in_as (user u) (st_secret env u st).
Proof.
  intros H. unfold st_secret. destruct (Py.not_ (mfa_secrets u)) eqn:E; [|done].
  pose proof (logged_in_as_commit (user u) st (with_secret env u) H
                (with_secret_user u)) as H'.
  by rewrite with_secret_user in H'.
Qed.

(** [wrap_login_user] on the [current_user] proxy: the gate, and past it. *)
Lemma wrap_login_user_proxy_gate u st :
  mfa_not_verified (session st) = true ->
  wrap_login_user_proxy u st =
    (Ok (redirect (url_for "mfa_verify" None)),
     with_session (set_username (Some (user u))) st).
Proof.
  intros Hg. unfold wrap_login_user_proxy. run.
  change (mfa_not_verified _) with (mfa_not_verified (session st)).
  by rewrite Hg.
Qed.

Lemma wrap_login_user_proxy_raise u st :
  mfa_not_verified (session st) = false ->
  wrap_login_user_proxy u st =
    (Raise RecursionError,
     emit (ev_login_user (user u))
       (mkState (set_username (Some (user u)) (session st)) (session_permanent st)
                (Some (user u)) (users st) (cases st) (trace st))).
Proof.
  intros Hg. unfold wrap_login_user_proxy. run.
  change (mfa_not_verified _) with (mfa_not_verified (session st)).
  by rewrite Hg.
Qed.

(** [mfa_setup] on a verifying token: the handler up to its call of
    [wrap_login_user]. *)
Lemma mfa_setup_verified req st u :
  current_user_obj st = Some u ->
  mfa_submit (mfa_form req) && mfa_validate (mfa_form req) = true ->
  totp_verify env (mfa_secrets (with_secret env u)) (token (mfa_form req)) = true ->
  mfa_setup env req st = wrap_login_user_proxy (enrolled env u) (st_enrolled env u st).
Proof.
  intros Hcu Hform Htotp.
  assert (Hl : logged_in_as (user u) st) by by exists u.
  apply logged_in_as_st_secret in Hl.
  pose proof (logged_in_as_commit _ _ (enrolled env u) Hl (with_secret_user u)) as Hl2.
  apply current_user_user_logged_in in Hl2.
  change (user (enrolled env u)) with (user (with_secret env u)) in Hl2.
  rewrite with_secret_user in Hl2.
  unfold mfa_setup. run. rewrite Hcu, Hform.
  unfold st_enrolled, enrolled, st_secret, with_secret in *.
  destruct (Py.not_ (mfa_secrets u)) eqn:E; simpl in Htotp, Hl2; run; rewrite Htotp.
  - by rewrite Hl2.
  - by rewrite Hl2.
Qed.

Lemma st_enrolled_session u st : session (st_enrolled env u st) = session st.
Proof. unfold st_enrolled, st_secret. simpl. by destruct (Py.not_ _). Qed.

(** With the marker true, a verifying submission to /auth/mfa-setup ends
    in the RecursionError of [wrap_login_user] on the proxy. *)
Lemma mfa_setup_verified_marker_true req st u :
  current_user_obj st = Some u ->
  mfa_submit (mfa_form req) && mfa_validate (mfa_form req) = true ->
  totp_verify env (mfa_secrets (with_secret env u)) (token (mfa_form req)) = true ->
  mfa_not_verified (session st) = false ->
  fst (mfa_setup env req st) = Raise RecursionError.
Proof.
  intros Hcu Hform Htotp Hg.
  rewrite (mfa_setup_verified req st u Hcu Hform Htotp).
  by rewrite wrap_login_user_proxy_raise by by rewrite st_enrolled_session.
Qed.

End MfaSetup.

(** C5, as the code has it.  On a submission to /auth/mfa-setup whose
    token verifies, the handler commits [mfa_enabled = true] on the user's
    row and audits the success; when the session's marker is unset or
    false it then redirects to the MFA-verification entry point, and the
    session is not finalized: no login is audited, no case context set. *)
Theorem mfa_setup_token_verified env req st u :
  current_user_obj st = Some u ->
  mfa_submit (mfa_form req) && mfa_validate (mfa_form req) = true ->
  totp_verify env (mfa_secrets (with_secret env u)) (token (mfa_form req)) = true ->
  let st' := snd (mfa_setup env req st) in
  users st' !! user u = Some (enrolled env u) /\
  mfa_enabled (enrolled env u) = true /\
  (exists mid post,
     trace st' = trace st ++ mid ++
                 [ev_commit (enrolled env u);
                  ev_track_activity (act_mfa_setup_successful (user u))] ++ post) /\
  (mfa_not_verified (session st) = true ->
   mfa_setup env req st
   = (Ok (redirect (url_for "mfa_verify" None)),
      with_session (set_username (Some (user u))) (st_enrolled env u st)) /\
   sess_current_case (session st') = sess_current_case (session st) /\
   existsb is_logged_in_activity (trace st') = existsb is_logged_in_activity (trace st) /\
   existsb is_login_user (trace st') = existsb is_login_user (trace st)).
Proof.
  intros Hcu Hform Htotp st'. subst st'.
  rewrite (mfa_setup_verified env req st u Hcu Hform Htotp).
  assert (Hrow : users (st_enrolled env u st) !! user u = Some (enrolled env u)).
  { unfold st_enrolled. simpl. apply lookup_insert_eq. }
  assert (Htr : exists mid,
             trace (st_enrolled env u st)
             = trace st ++ mid ++
               [ev_commit (enrolled env u);
                ev_track_activity (act_mfa_setup_successful (user u))] /\
             existsb is_logged_in_activity mid = false /\
             existsb is_login_user mid = false).
  { unfold st_enrolled, st_secret. simpl.
    destruct (Py.not_ (mfa_secrets u)); simpl.
    - exists [ev_commit (with_secret env u)]. by rewrite <- !app_assoc.
    - exists []. by rewrite <- !app_assoc. }
  destruct Htr as (mid & Htr & Hmid1 & Hmid2).
  assert (Hname : user (enrolled env u) = user u) by apply (with_secret_user env).
  set (se := st_enrolled env u st) in *.
  destruct (mfa_not_verified (session st)) eqn:Hg.
  - rewrite wrap_login_user_proxy_gate
      by (subst se; by rewrite st_enrolled_session).
    cbn [snd]. rewrite Hname.
    change (users (with_session _ se)) with (users se).
    change (trace (with_session _ se)) with (trace se).
    change (sess_current_case (session (with_session _ se)))
      with (sess_current_case (session se)).
    rewrite Htr.
    split; [done|]. split; [done|].
    split; [exists mid, []; by rewrite app_nil_r|].
    intros _. split; [done|].
    split; [subst se; by rewrite (st_enrolled_session env)|].
    rewrite !existsb_app, Hmid1, Hmid2. simpl. by rewrite !orb_false_r.
  - rewrite wrap_login_user_proxy_raise
      by (subst se; by rewrite st_enrolled_session).
    cbn [snd].
    change (users (emit _ (mkState _ _ _ (users se) _ _))) with (users se).
    change (trace (emit ?e (mkState _ _ _ _ _ (trace se))))
      with (trace se ++ [ev_login_user (user (enrolled env u))]).
    rewrite Htr.
    split; [done|]. split; [done|].
    split; [|done].
    exists mid, [ev_login_user (user (enrolled env u))].
    by rewrite <- !app_assoc.
Qed.

Lemma mfa_setup_token_verified_witness :
  users (snd (mfa_setup Demo.local_env (Demo.request None "" "" (Some "492039"))
                (Demo.st_pending "bob" (Some "bob"))))
    !! "bob" = Some (enrolled Demo.local_env Demo.bob) /\
  mfa_setup Demo.local_env (Demo.request None "" "" (Some "492039"))
    (Demo.st_pending "bob" (Some "bob"))
  = (Ok (redirect (url_for "mfa_verify" None)),
     with_session (set_username (Some "bob"))
       (st_enrolled Demo.local_env Demo.bob (Demo.st_pending "bob" (Some "bob")))).
Proof.
  pose proof (mfa_setup_token_verified Demo.local_env
                (Demo.request None "" "" (Some "492039"))
                (Demo.st_pending "bob" (Some "bob")) Demo.bob
                eq_refl eq_refl eq_refl) as (Hrow & _ & _ & Hgate).
  split; [exact Hrow | exact (proj1 (Hgate eq_refl))].
Defined.

(** The claim C5 as stated fails: bob, logged in and waiting for his second
    factor, submits a token that verifies to /auth/mfa-setup; he is sent
    to /auth/mfa-verify, no login is audited and no case context is set. *)
Lemma mfa_setup_returns_to_mfa_verify :
  totp_verify Demo.local_env (mfa_secrets Demo.bob) (Some "492039") = true /\
  fst (mfa_setup Demo.local_env (Demo.request None "" "" (Some "492039"))
         (Demo.st_pending "bob" (Some "bob")))
  = Ok (redirect (url_for "mfa_verify" None)) /\
  trace (snd (mfa_setup Demo.local_env (Demo.request None "" "" (Some "492039"))
                (Demo.st_pending "bob" (Some "bob"))))
  = [ev_commit (set_mfa_enabled true Demo.bob);
     ev_track_activity (act_mfa_setup_successful "bob")] /\
  sess_current_case
    (session (snd (mfa_setup Demo.local_env
                     (Demo.request None "" "" (Some "492039"))
                     (Demo.st_pending "bob" (Some "bob"))))) = None.
Proof. vm_compute. repeat split; reflexivity. Qed.

Section StillPending.

Context (env : Env).

Lemma still_pending_refl b st :
  mfa_not_verified (session st) = true -> still_pending b st st.
Proof. intros H. exists []. by rewrite app_nil_r. Qed.

Lemma still_pending_marker b st st' :
  still_pending b st st' -> mfa_not_verified (session st') = true.
Proof. by intros (new & _ & _ & _ & H). Qed.

(** A further stretch of events that audits no login, and calls
    [login_user] only if allowed, keeps a run pending. *)
Lemma still_pending_step b st st1 st2 evs :
  still_pending b st st1 ->
  trace st2 = trace st1 ++ evs ->
  mfa_not_verified (session st2) = true ->
  existsb is_logged_in_activity evs = false ->
  (b = false -> existsb is_login_user evs = false) ->
  still_pending b st st2.
Proof.
  intros (new & Ht & Ha & Hl & _) Ht2 Hm Ha2 Hl2.
  exists (new ++ evs). rewrite Ht2, Ht, app_assoc. split; [done|].
  rewrite !existsb_app, Ha, Ha2. split; [done|]. split; [|done].
  intros Hb. by rewrite (Hl Hb), (Hl2 Hb).
Qed.

Ltac pending_from H :=
  eapply (still_pending_step _ _ _ _ _ H);
  [ simpl; first [ symmetry; apply app_nil_r | rewrite <- ?app_assoc; reflexivity ]
  | simpl; first [ eassumption | exact (still_pending_marker _ _ _ H) | done ]
  | done
  | (intros; done) ].

Lemma still_pending_wrap_login_user b st st1 req u :
  still_pending b st st1 ->
  still_pending b st (snd (wrap_login_user env req u st1)).
Proof.
  intros H. pose proof (still_pending_marker _ _ _ H) as Hm.
  rewrite wrap_login_user_gate by done. pending_from H.
Qed.

Lemma still_pending__authenticate_password b st st1 req form username pw :
  still_pending b st st1 ->
  still_pending b st (snd (_authenticate_password env req form username pw st1)).
Proof.
  intros H. pose proof (still_pending_marker _ _ _ H) as Hm.
  unfold _authenticate_password, _retrieve_user_by_username. run.
  change (lookup_active username _) with (lookup_active username st1).
  destruct (lookup_active username st1) as [u|]; run; [|pending_from H].
  destruct (is_service_account u); run; [pending_from H|].
  destruct (check_password_hash env (password u) pw); [|run; pending_from H].
  rewrite wrap_login_user_gate by done. pending_from H.
Qed.

Lemma still_pending__authenticate_ldap b st st1 req form username pw fb :
  still_pending b st st1 ->
  still_pending b st (snd (_authenticate_ldap env req form username pw fb st1)).
Proof.
  intros H. pose proof (still_pending_marker _ _ _ H) as Hm.
  rewrite _authenticate_ldap_try.
  destruct (ldap_authenticate env username pw) as [[|]|e] eqn:Hl.
  - (* the directory accepts *)
    destruct (lookup_active username st1) as [u|] eqn:Hu.
    + rewrite (_authenticate_ldap_body_success env _ _ _ _ _ _ u) by done.
      rewrite wrap_login_user_gate by done. pending_from H.
    + unfold _authenticate_ldap_body, _retrieve_user_by_username. run.
      rewrite Hl. simpl.
      change (lookup_active username _) with (lookup_active username st1).
      rewrite Hu. pending_from H.
  - (* the directory refuses *)
    destruct (decide (fb = Some true)) as [->|Hfb].
    + rewrite (_authenticate_ldap_body_fallback env) by done.
      assert (Hp : still_pending b st
                (emit (ev_track_activity (act_ldap_wrong_fallback username))
                   (emit (ev_ldap_authenticate username) st1))) by pending_from H.
      apply (still_pending__authenticate_password _ _ _ req form username pw) in Hp.
      destruct (_authenticate_password _ _ _ _ _ _) as [[r|e] st2]; [done|].
      simpl in *. pending_from Hp.
    + rewrite (_authenticate_ldap_body_no_fallback env) by done. pending_from H.
  - (* the directory call raises *)
    rewrite (_authenticate_ldap_body_fault env _ _ _ _ _ _ _ Hl). pending_from H.
Qed.

Lemma still_pending_login b st req :
  mfa_not_verified (session st) = true ->
  still_pending b st (snd (login env req st)).
Proof.
  intros Hm. pose proof (still_pending_refl b st Hm) as H.
  unfold login. run.
  match goal with |- context [current_user_obj ?s] =>
    change (current_user_obj s) with (current_user_obj st) end.
  destruct (current_user_obj st); [pending_from H|].
  assert (Hp : still_pending b st
            (mkState (session st) true (current_user st) (users st)
                     (cases st) (trace st))) by pending_from H.
  destruct (negb (is_submitted (login_form req)) && negb (validate (login_form req)));
    [done|].
  destruct (is_authentication_ldap env).
  - by apply still_pending__authenticate_ldap.
  - by apply still_pending__authenticate_password.
Qed.

Lemma still_pending_mfa_setup b st req :
  mfa_not_verified (session st) = true ->
  still_pending b st (snd (mfa_setup env req st)).
Proof.
  intros Hm. pose proof (still_pending_refl b st Hm) as H.
  unfold mfa_setup. run.
  destruct (current_user_obj st) as [u|]; [|pending_from H].
  destruct (mfa_submit (mfa_form req) && mfa_validate (mfa_form req)); [|pending_from H].
  destruct (Py.not_ (mfa_secrets u)); run.
  - destruct (totp_verify env _ _); run; [|pending_from H].
    unfold current_user_user. run.
    match goal with |- context [current_user_obj ?s] =>
      destruct (current_user_obj s) end.
    + rewrite wrap_login_user_proxy_gate by done. pending_from H.
    + destruct (anonymous_user env); [|pending_from H].
      rewrite wrap_login_user_proxy_gate by done. pending_from H.
  - destruct (totp_verify env _ _); run; [|pending_from H].
    unfold current_user_user. run.
    match goal with |- context [current_user_obj ?s] =>
      destruct (current_user_obj s) end.
    + rewrite wrap_login_user_proxy_gate by done. pending_from H.
    + destruct (anonymous_user env); [|pending_from H].
      rewrite wrap_login_user_proxy_gate by done. pending_from H.
Qed.

Lemma still_pending_mfa_verify st req :
  mfa_not_verified (session st) = true ->
  mfa_completes env route_mfa_verify req st = false ->
  still_pending (mfa_not_provisioned route_mfa_verify st) st
    (snd (mfa_verify env req st)).
Proof.
  intros Hm Hc.
  unfold mfa_completes, mfa_not_provisioned, token_accepted in *.
  unfold mfa_verify, _retrieve_user_by_username. run.
  destruct (sess_username (session st)) as [username|];
    [|by apply still_pending_refl].
  change (lookup_active username _) with (lookup_active username st).
  destruct (lookup_active username st) as [u|]; run.
  2: { pose proof (still_pending_refl false st Hm) as H. pending_from H. }
  destruct (Py.not_ (mfa_secrets u)) eqn:Hs.
  - pose proof (still_pending_refl true st Hm) as H.
    unfold current_user_user. run.
    match goal with |- context [current_user_obj ?s] =>
      destruct (current_user_obj s) end; run; [pending_from H|].
    destruct (anonymous_user env); run; pending_from H.
  - pose proof (still_pending_refl false st Hm) as H.
    destruct (mfa_submit (mfa_form req) && mfa_validate (mfa_form req));
      [|pending_from H].
    destruct (Py.not_ (token (mfa_form req))); run; [pending_from H|].
    simpl in Hc. rewrite Hc.
    unfold current_user_user. run.
    match goal with |- context [current_user_obj ?s] =>
      destruct (current_user_obj s) end; run; [pending_from H|].
    destruct (anonymous_user env); run; pending_from H.
Qed.

End StillPending.

Lemma still_pending_trans b1 b2 st st1 st2 :
  still_pending b1 st st1 -> still_pending b2 st1 st2 ->
  still_pending (b1 || b2) st st2.
Proof.
  intros (new1 & Ht1 & Ha1 & Hl1 & _) (new2 & Ht2 & Ha2 & Hl2 & Hm).
  exists (new1 ++ new2). rewrite Ht2, Ht1, app_assoc. split; [done|].
  rewrite !existsb_app, Ha1, Ha2. split; [done|]. split; [|done].
  intros [-> ->]%orb_false_elim. by rewrite Hl1, Hl2.
Qed.

Lemma still_pending_dispatch env r req st :
  mfa_not_verified (session st) = true ->
  mfa_completes env r req st = false ->
  still_pending (mfa_not_provisioned r st) st (snd (dispatch env r req st)).
Proof.
  destruct r; intros Hm Hc; simpl.
  - by apply still_pending_login.
  - by apply still_pending_mfa_setup.
  - by apply still_pending_mfa_verify.
Qed.

Lemma still_pending_serve env reqs st :
  mfa_not_verified (session st) = true ->
  none_completes env reqs st = true ->
  still_pending (some_not_provisioned env reqs st) st (serve env reqs st).
Proof.
  revert st. induction reqs as [|[r req] reqs IH]; intros st Hm Hn; simpl.
  - by apply still_pending_refl.
  - simpl in Hn. apply andb_prop in Hn as [Hc Hn]. apply negb_true_iff in Hc.
    pose proof (still_pending_dispatch env r req st Hm Hc) as H1.
    eapply still_pending_trans; [exact H1|].
    apply IH; [|done]. by eapply still_pending_marker.
Qed.

Section NobodyLoggedIn.

Context (env : Env).

(** With the marker unset or false, local and directory authentication
    leave flask-login's user and the user table as they are. *)
Lemma _authenticate_password_gated req form username pw st :
  mfa_not_verified (session st) = true ->
  current_user (snd (_authenticate_password env req form username pw st))
  = current_user st /\
  users (snd (_authenticate_password env req form username pw st)) = users st.
Proof.
  intros Hm. unfold _authenticate_password, _retrieve_user_by_username. run.
  change (lookup_active username _) with (lookup_active username st).
  destruct (lookup_active username st) as [u|]; run; [|done].
  destruct (is_service_account u); run; [done|].
  destruct (check_password_hash env (password u) pw); [|done].
  by rewrite wrap_login_user_gate.
Qed.

Lemma _authenticate_ldap_gated req form username pw fb st :
  mfa_not_verified (session st) = true ->
  current_user (snd (_authenticate_ldap env req form username pw fb st))
  = current_user st /\
  users (snd (_authenticate_ldap env req form username pw fb st)) = users st.
Proof.
  intros Hm. rewrite _authenticate_ldap_try.
  destruct (ldap_authenticate env username pw) as [[|]|e] eqn:Hl.
  - destruct (lookup_active username st) as [u|] eqn:Hu.
    + rewrite (_authenticate_ldap_body_success env _ _ _ _ _ _ u) by done.
      by rewrite wrap_login_user_gate.
    + unfold _authenticate_ldap_body, _retrieve_user_by_username. run.
      rewrite Hl. simpl.
      change (lookup_active username _) with (lookup_active username st).
      by rewrite Hu.
  - destruct (decide (fb = Some true)) as [->|Hfb].
    + rewrite (_authenticate_ldap_body_fallback env) by done.
      pose proof (_authenticate_password_gated req form username pw
                    (emit (ev_track_activity (act_ldap_wrong_fallback username))
                       (emit (ev_ldap_authenticate username) st)) Hm) as H.
      by destruct (_authenticate_password _ _ _ _ _ _) as [[r|e] st2].
    + by rewrite (_authenticate_ldap_body_no_fallback env).
  - by rewrite (_authenticate_ldap_body_fault env _ _ _ _ _ _ _ Hl).
Qed.

Lemma login_gated req st :
  mfa_not_verified (session st) = true ->
  current_user (snd (login env req st)) = current_user st /\
  users (snd (login env req st)) = users st.
Proof.
  intros Hm. unfold login. run.
  match goal with |- context [current_user_obj ?s] =>
    change (current_user_obj s) with (current_user_obj st) end.
  destruct (current_user_obj st); [done|].
  destruct (negb _ && negb _); [done|].
  destruct (is_authentication_ldap env).
  - exact (_authenticate_ldap_gated req _ _ _ _
             (mkState (session st) true (current_user st) (users st)
                      (cases st) (trace st)) Hm).
  - exact (_authenticate_password_gated req _ _ _
             (mkState (session st) true (current_user st) (users st)
                      (cases st) (trace st)) Hm).
Qed.

(** /auth/mfa-setup is behind [@login_required]. *)
Lemma mfa_setup_anonymous req st :
  current_user_obj st = None -> mfa_setup env req st = (Ok unauthorized, st).
Proof. intros H. unfold mfa_setup. run. by rewrite H. Qed.

(** The anonymous user of flask-login has no attribute [user]. *)
Hypothesis Hanon : anonymous_user env = None.

Ltac pending_from H :=
  eapply (still_pending_step _ _ _ _ _ H);
  [ simpl; first [ symmetry; apply app_nil_r | rewrite <- ?app_assoc; reflexivity ]
  | simpl; first [ eassumption | exact (still_pending_marker _ _ _ H) | done ]
  | done
  | (intros; done) ].

(** While nobody is logged in, every path of [mfa_verify] to [login_user]
    or to [wrap_login_user] passes a read of [current_user.user], which
    raises. *)
Lemma mfa_verify_anonymous req st :
  current_user_obj st = None ->
  current_user (snd (mfa_verify env req st)) = current_user st /\
  users (snd (mfa_verify env req st)) = users st /\
  (mfa_not_verified (session st) = true ->
   mfa_completes env route_mfa_verify req st = false ->
   still_pending false st (snd (mfa_verify env req st))).
Proof.
  intros Hcu.
  unfold mfa_completes, token_accepted.
  unfold mfa_verify, _retrieve_user_by_username. run.
  destruct (sess_username (session st)) as [username|].
  2: { split; [done|]. split; [done|]. intros Hm _. by apply still_pending_refl. }
  change (lookup_active username _) with (lookup_active username st).
  destruct (lookup_active username st) as [u|]; run.
  2: { split; [done|]. split; [done|]. intros Hm _.
       pose proof (still_pending_refl false st Hm) as H. pending_from H. }
  destruct (Py.not_ (mfa_secrets u)) eqn:Hs.
  - unfold current_user_user. run.
    match goal with |- context [current_user_obj ?s] =>
      change (current_user_obj s) with (current_user_obj st) end.
    rewrite Hcu, Hanon. split; [done|]. split; [done|]. intros Hm _.
    pose proof (still_pending_refl false st Hm) as H. pending_from H.
  - destruct (mfa_submit (mfa_form req) && mfa_validate (mfa_form req)).
    2: { split; [done|]. split; [done|]. intros Hm _.
         pose proof (still_pending_refl false st Hm) as H. pending_from H. }
    destruct (Py.not_ (token (mfa_form req))); run.
    { split; [done|]. split; [done|]. intros Hm _.
      pose proof (still_pending_refl false st Hm) as H. pending_from H. }
    destruct (totp_verify env (mfa_secrets u) (token (mfa_form req))); run;
      unfold current_user_user; run;
      match goal with |- context [current_user_obj ?s] =>
        change (current_user_obj s) with (current_user_obj st) end;
      rewrite Hcu, Hanon; (split; [done|]); (split; [done|]); intros Hm Hc;
      [done|].
    pose proof (still_pending_refl false st Hm) as H. pending_from H.
Qed.

Lemma dispatch_anonymous r req st :
  current_user_obj st = None ->
  mfa_not_verified (session st) = true ->
  mfa_completes env r req st = false ->
  still_pending false st (snd (dispatch env r req st)) /\
  current_user (snd (dispatch env r req st)) = current_user st /\
  users (snd (dispatch env r req st)) = users st.
Proof.
  intros Hcu Hm Hc. destruct r; simpl.
  - split; [by apply still_pending_login | by apply login_gated].
  - rewrite mfa_setup_anonymous by done. split; [by apply still_pending_refl | done].
  - destruct (mfa_verify_anonymous req st Hcu) as (H1 & H2 & H3).
    split; [by apply H3 | done].
Qed.

Lemma serve_anonymous reqs st :
  current_user_obj st = None ->
  mfa_not_verified (session st) = true ->
  none_completes env reqs st = true ->
  still_pending false st (serve env reqs st) /\
  current_user (serve env reqs st) = current_user st /\
  users (serve env reqs st) = users st.
Proof.
  revert st. induction reqs as [|[r req] reqs IH]; intros st Hcu Hm Hn; simpl.
  - split; [by apply still_pending_refl | done].
  - simpl in Hn. apply andb_prop in Hn as [Hc Hn]. apply negb_true_iff in Hc.
    destruct (dispatch_anonymous r req st Hcu Hm Hc) as (H1 & H2 & H3).
    destruct (IH (snd (dispatch env r req st))) as (H4 & H5 & H6).
    + unfold current_user_obj in *. by rewrite H2, H3.
    + by eapply still_pending_marker.
    + done.
    + split; [|by rewrite H5, H6].
      exact (still_pending_trans false false _ _ _ H1 H4).
Qed.

End NobodyLoggedIn.

(** C6.  With the marker unset or false, [wrap_login_user], which runs
    when the credentials were verified, redirects to the MFA-verification
    entry point and changes nothing but the session's user name: no
    [login_user], no audit entry.  From a state in which nobody is logged
    in, as it is when /login verifies credentials, and whatever requests
    the module then serves, [login_user] is not called, no successful login
    is audited, nobody is logged in and the marker stays unset or false
    until a token is accepted by /auth/mfa-verify.  The anonymous user is
    flask-login's, which has no attribute [user]. *)
Theorem mfa_gate_holds_until_mfa_completes env :
  anonymous_user env = None ->
  (forall req u st,
     mfa_not_verified (session st) = true ->
     wrap_login_user env req u st
     = (Ok (redirect (url_for "mfa_verify" None)),
        with_session (set_username (Some (user u))) st)) /\
  (forall reqs st,
     current_user_obj st = None ->
     mfa_not_verified (session st) = true ->
     none_completes env reqs st = true ->
     still_pending false st (serve env reqs st) /\
     current_user_obj (serve env reqs st) = None).
Proof.
  intros Hanon. split.
  - intros. by apply wrap_login_user_gate.
  - intros reqs st Hcu Hm Hn.
    destruct (serve_anonymous env Hanon reqs st Hcu Hm Hn) as (H1 & H2 & H3).
    split; [done|]. unfold current_user_obj in *. by rewrite H2, H3.
Qed.

Lemma mfa_gate_holds_until_mfa_completes_witness :
  wrap_login_user Demo.local_env (Demo.request None "carol" "hash-c" None)
    Demo.carol (Demo.st_fresh Demo.two_cases)
  = (Ok (redirect (url_for "mfa_verify" None)),
     with_session (set_username (Some "carol")) (Demo.st_fresh Demo.two_cases)) /\
  still_pending false (Demo.st_fresh Demo.two_cases)
    (serve Demo.local_env
       [(route_login, Demo.request None "carol" "hash-c" None);
        (route_mfa_verify, Demo.request None "" "" None);
        (route_mfa_setup, Demo.request None "" "" (Some "492039"));
        (route_login, Demo.request None "alice" "hash-a" None);
        (route_mfa_verify, Demo.request None "" "" (Some "000000"))]
       (Demo.st_fresh Demo.two_cases)).
Proof.
  split.
  - exact (proj1 (mfa_gate_holds_until_mfa_completes Demo.local_env eq_refl)
             (Demo.request None "carol" "hash-c" None) Demo.carol
             (Demo.st_fresh Demo.two_cases) eq_refl).
  - exact (proj1 (proj2 (mfa_gate_holds_until_mfa_completes Demo.local_env eq_refl)
             [(route_login, Demo.request None "carol" "hash-c" None);
              (route_mfa_verify, Demo.request None "" "" None);
              (route_mfa_setup, Demo.request None "" "" (Some "492039"));
              (route_login, Demo.request None "alice" "hash-a" None);
              (route_mfa_verify, Demo.request None "" "" (Some "000000"))]
             (Demo.st_fresh Demo.two_cases) eq_refl eq_refl eq_refl)).
Defined.

(* ================================================================== *)
(** * Further properties of the handlers *)
(* ================================================================== *)

Section FinalizationFacts.

Context (env : Env).

Lemma redirect_target_url req u st s :
  fst (redirect_target env req u st) = Ok (url s) ->
  UrlSplit.netloc (checknetloc env) s = Ok "" /\ requested_next_url req u = Some s.
Proof.
  unfold redirect_target. destruct (requested_next_url req u) as [n|]; [|done].
  destruct (Py.not_ (Some n)); [done|]. run.
  destruct (UrlSplit.netloc _ n) as [nl|e] eqn:E; [|done].
  destruct (String.eqb_spec nl ""); simpl; [|done].
  intros [= <-]. by subst nl.
Qed.

Lemma requested_next_url_Some req u s :
  requested_next_url req u = Some s ->
  exists next, args_next req = Some next /\ Py.truthy next = true /\
    (s = next \/ s = next +:+ "?cid=" +:+ Py.str (ctx_case u)).
Proof.
  unfold requested_next_url. destruct (args_next req) as [next|]; [|done].
  destruct (Py.truthy next) eqn:Ht; [|done].
  intros [= <-]. exists next. split; [done|]. split; [done|].
  destruct (Py.contains "cid=" next); auto.
Qed.

Lemma requested_next_url_absent req u :
  args_next req = None \/ args_next req = Some "" ->
  requested_next_url req u = None.
Proof. unfold requested_next_url. by intros [-> | ->]. Qed.

(** The events of a finalization, by the way the case is resolved. *)
Lemma wrap_login_user_trace_set req u st k :
  mfa_not_verified (session st) = false -> ctx_case u = Some k ->
  trace (snd (wrap_login_user env req u st))
  = trace st ++ [ev_login_user (user u);
                 ev_track_activity (act_logged_in (user u));
                 ev_track_activity (act_logged_in (str_user env u))].
Proof.
  intros Hg Hk. rewrite wrap_login_user_state by done.
  rewrite (resolve_case_set _ _ _ Hk). simpl. by rewrite <- !app_assoc.
Qed.

Lemma wrap_login_user_trace_first req u st c :
  mfa_not_verified (session st) = false ->
  ctx_case u = None -> order_by_case_id_first (cases st) = Some c ->
  trace (snd (wrap_login_user env req u st))
  = trace st ++ [ev_login_user (user u);
                 ev_track_activity (act_logged_in (user u));
                 ev_commit (set_ctx (case_id c) (name c) u);
                 ev_track_activity
                   (act_logged_in (str_user env (set_ctx (case_id c) (name c) u)))].
Proof.
  intros Hg Hk Hc. rewrite wrap_login_user_state by done.
  rewrite (resolve_case_first u (st_logged_in env u st) c Hk Hc). simpl.
  by rewrite <- !app_assoc.
Qed.

Lemma wrap_login_user_trace_no_case req u st :
  mfa_not_verified (session st) = false ->
  ctx_case u = None -> order_by_case_id_first (cases st) = None ->
  snd (wrap_login_user env req u st) = st_logged_in env u st.
Proof.
  intros Hg Hk Hc. rewrite wrap_login_user_state by done.
  unfold resolve_case. rewrite Hk. run. by rewrite Hc.
Qed.

(** Past the gate the user is logged in, however the finalization ends. *)
Lemma wrap_login_user_current_user req u st :
  mfa_not_verified (session st) = false ->
  current_user (snd (wrap_login_user env req u st)) = Some (user u).
Proof.
  intros Hg. rewrite wrap_login_user_state by done.
  unfold resolve_case. destruct (ctx_case u); [done|]. run.
  by destruct (order_by_case_id_first _).
Qed.

End FinalizationFacts.

(** C1. Two kinds of [next] URL are not treated as the redirect guard is
    meant to treat them.  A [next] that [urlsplit] rejects makes the
    finalization raise that ValueError, after the user was logged in:
    there is no redirect, to the landing page or elsewhere.  A same-origin
    [next] that has a query string and no "cid=" gets the literal suffix
    ['?cid=' + str(cid)] after its query string, where it is no query
    parameter of its own. *)
Theorem wrap_login_user_next_unguarded env req u st next cid :
  sess_mfa_verified (session st) = Some true ->
  args_next req = Some next -> Py.truthy next = true ->
  resolved_case_id u st = Some cid ->
  (forall e, UrlSplit.netloc (checknetloc env) next = Raise e ->
     fst (wrap_login_user env req u st) = Raise e /\
     (exists m, e = ValueError m) /\
     current_user (snd (wrap_login_user env req u st)) = Some (user u)) /\
  (forall path query, next = path +:+ "?" +:+ query ->
     Py.contains "cid=" next = false ->
     UrlSplit.netloc (checknetloc env) next = Ok "" ->
     fst (wrap_login_user env req u st)
     = Ok (redirect (url ((path +:+ "?" +:+ query) +:+ "?cid=" +:+ pretty cid)))).
Proof.
  intros Hm Hn Ht Hr.
  rewrite (wrap_login_user_next env req u st next cid Hm Hn Ht Hr).
  split.
  - intros e He. rewrite He. split; [done|].
    split; [by eapply netloc_raise|].
    apply wrap_login_user_current_user. by apply marker_true_not_gated.
  - intros path query -> Hc Hnl. by rewrite Hnl, Hc.
Qed.

Lemma wrap_login_user_next_unguarded_witness :
  (fst (wrap_login_user Demo.local_env
          (Demo.request (Some "//[evil.example/x") "bob" "hash-b" None)
          Demo.bob (Demo.st_verified Demo.two_cases))
   = Raise (ValueError "Invalid IPv6 URL") /\
   current_user (snd (wrap_login_user Demo.local_env
                        (Demo.request (Some "//[evil.example/x") "bob" "hash-b" None)
                        Demo.bob (Demo.st_verified Demo.two_cases)))
   = Some "bob") /\
  fst (wrap_login_user Demo.local_env
         (Demo.request (Some "/cases?page=2") "bob" "hash-b" None)
         Demo.bob (Demo.st_verified Demo.two_cases))
  = Ok (redirect (url "/cases?page=2?cid=5")).
Proof.
  split.
  - destruct (proj1 (wrap_login_user_next_unguarded Demo.local_env
               (Demo.request (Some "//[evil.example/x") "bob" "hash-b" None)
               Demo.bob (Demo.st_verified Demo.two_cases)
               "//[evil.example/x" 5 eq_refl eq_refl eq_refl eq_refl)
               (ValueError "Invalid IPv6 URL") eq_refl) as (H1 & _ & H2).
    split; [exact H1 | exact H2].
  - exact (proj2 (wrap_login_user_next_unguarded Demo.local_env
             (Demo.request (Some "/cases?page=2") "bob" "hash-b" None)
             Demo.bob (Demo.st_verified Demo.two_cases)
             "/cases?page=2" 5 eq_refl eq_refl eq_refl eq_refl)
             "/cases" "page=2" eq_refl eq_refl eq_refl).
Defined.

Lemma wrap_login_user_response env req u st r :
  fst (wrap_login_user env req u st) = Ok r -> exists t, r = redirect t.
Proof.
  destruct (mfa_not_verified (session st)) eqn:Hg.
  - rewrite wrap_login_user_gate by done. intros [= <-]. by eexists.
  - rewrite wrap_login_user_unfold by done.
    destruct (resolve_case u _) as [[u'|e] st1]; [|done].
    destruct (redirect_target env req u' _) as [[t|e] st2]; [|done].
    intros [= <-]. by eexists.
Qed.

(** X1. [wrap_login_user] answers with a redirect or raises: it never
    renders a page. *)
Theorem wrap_login_user_redirects env req u st r :
  fst (wrap_login_user env req u st) = Ok r -> exists t, r = redirect t.
Proof.
  destruct (mfa_not_verified (session st)) eqn:Hg.
  - rewrite wrap_login_user_gate by done. intros [= <-]. by eexists.
  - rewrite wrap_login_user_unfold by done.
    destruct (resolve_case u _) as [[u'|e] st1]; [|done].
    destruct (redirect_target env req u' _) as [[t|e] st2]; [|done].
    intros [= <-]. by eexists.
Qed.

Lemma wrap_login_user_redirects_witness :
  exists t,
    redirect (url "/cases?cid=5") = redirect t.
Proof.
  exact (wrap_login_user_redirects Demo.local_env
           (Demo.request (Some "/cases") "bob" "hash-b" None)
           Demo.bob (Demo.st_verified Demo.two_cases)
           (redirect (url "/cases?cid=5")) eq_refl).
Defined.

(** X2. A literal URL that [wrap_login_user] redirects to has no netloc
    according to [urlsplit], and it is the requested [next], as it is or
    followed by the suffix "?cid=...": the handler never redirects to
    another URL. *)
Theorem wrap_login_user_same_origin env req u st s :
  fst (wrap_login_user env req u st) = Ok (redirect (url s)) ->
  UrlSplit.netloc (checknetloc env) s = Ok "" /\
  exists next,
    args_next req = Some next /\ Py.truthy next = true /\
    (s = next \/ exists cid : option Z, s = next +:+ "?cid=" +:+ Py.str cid).
Proof.
  destruct (mfa_not_verified (session st)) eqn:Hg.
  { by rewrite wrap_login_user_gate. }
  rewrite wrap_login_user_unfold by done.
  destruct (resolve_case u _) as [[u'|e] st1]; [|done].
  destruct (redirect_target env req u' _) as [[t|e] st2] eqn:E; [|done].
  simpl. intros [= ->].
  apply (f_equal fst), redirect_target_url in E as [Hnl Hreq].
  split; [done|].
  apply requested_next_url_Some in Hreq as (next & Hn & Ht & [->| ->]);
    exists next; eauto 6.
Qed.

Lemma wrap_login_user_same_origin_witness :
  UrlSplit.netloc (checknetloc Demo.local_env) "/cases?cid=5" = Ok "" /\
  exists next,
    Some "/cases" = Some next /\ Py.truthy next = true /\
    ("/cases?cid=5" = next \/
     exists cid : option Z, "/cases?cid=5" = next +:+ "?cid=" +:+ Py.str cid).
Proof.
  exact (wrap_login_user_same_origin Demo.local_env
           (Demo.request (Some "/cases") "bob" "hash-b" None)
           Demo.bob (Demo.st_verified Demo.two_cases) "/cases?cid=5" eq_refl).
Defined.

Lemma wrap_login_user_landing env req u st cid :
  sess_mfa_verified (session st) = Some true ->
  args_next req = None \/ args_next req = Some "" ->
  resolved_case_id u st = Some cid ->
  fst (wrap_login_user env req u st)
  = Ok (redirect (url_for "index.index" (Some cid))).
Proof.
  intros Hm Hn Hr.
  rewrite wrap_login_user_unfold by by apply marker_true_not_gated.
  unfold resolved_case_id in Hr.
  destruct (ctx_case u) as [k|] eqn:Hk.
  - injection Hr as ->. rewrite (resolve_case_set _ _ _ Hk).
    unfold redirect_target. rewrite requested_next_url_absent by done.
    simpl. by rewrite Hk.
  - destruct (order_by_case_id_first (cases st)) as [c|] eqn:Hc; [|done].
    injection Hr as <-.
    rewrite (resolve_case_first u (st_logged_in env u st) c Hk Hc).
    unfold redirect_target. by rewrite requested_next_url_absent by done.
Qed.





(** X5. When the finalization fails for want of a case, it has already
    logged the user in and audited a successful login: the state it leaves
    has [current_user] set, the user name and the permissions in the
    session, no new current case, and an unchanged user table. *)
Theorem wrap_login_user_no_case_state env req u st :
  sess_mfa_verified (session st) = Some true ->
  ctx_case u = None -> cases st = [] ->
  let st' := snd (wrap_login_user env req u st) in
  current_user st' = Some (user u) /\
  sess_username (session st') = Some (user u) /\
  sess_permissions (session st')
  = Some (ac_get_effective_permissions_of_user env u) /\
  sess_current_case (session st') = sess_current_case (session st) /\
  users st' = users st /\
  trace st' = trace st ++ [ev_login_user (user u);
                           ev_track_activity (act_logged_in (user u))].
Proof.
  intros Hm%marker_true_not_gated Hk Hc st'. subst st'.
  rewrite wrap_login_user_trace_no_case by (done || by rewrite Hc).
  simpl. by rewrite <- app_assoc.
Qed.

Lemma wrap_login_user_no_case_state_witness :
  current_user (snd (wrap_login_user Demo.local_env
                       (Demo.request None "alice" "hash-a" None)
                       Demo.alice (Demo.st_verified []))) = Some "alice" /\
  trace (snd (wrap_login_user Demo.local_env
                (Demo.request None "alice" "hash-a" None)
                Demo.alice (Demo.st_verified [])))
  = [ev_login_user "alice"; ev_track_activity (act_logged_in "alice")].
Proof.
  pose proof (wrap_login_user_no_case_state Demo.local_env
                (Demo.request None "alice" "hash-a" None)
                Demo.alice (Demo.st_verified []) eq_refl eq_refl eq_refl)
    as (Hcu & _ & _ & _ & _ & Htr).
  split; [exact Hcu | exact Htr].
Defined.

Section Appended.

Context (env : Env).

Lemma appended_refl ok st : appended ok st st.
Proof. exists []. by rewrite app_nil_r. Qed.

Lemma appended_step ok st st1 st2 evs :
  appended ok st st1 ->
  trace st2 = trace st1 ++ evs ->
  forallb ok evs = true ->
  appended ok st st2.
Proof.
  intros (new & Ht & Hok) Ht2 Hok2. exists (new ++ evs).
  rewrite Ht2, Ht, app_assoc. split; [done|].
  by rewrite forallb_app, Hok, Hok2.
Qed.

Ltac appended_from H :=
  eapply (appended_step _ _ _ _ _ H);
  [ simpl; first [ symmetry; apply app_nil_r | rewrite <- ?app_assoc; reflexivity ]
  | simpl; rewrite ?andb_true_r; repeat (apply andb_true_intro; split); done ].

(** The events of [wrap_login_user] are calls of [login_user], audit
    entries and commits. *)
Lemma appended_wrap_login_user ok st st1 req u :
  (forall n, ok (ev_login_user n) = true) ->
  (forall a, ok (ev_track_activity a) = true) ->
  (forall u', ok (ev_commit u') = true) ->
  appended ok st st1 ->
  appended ok st (snd (wrap_login_user env req u st1)).
Proof.
  intros Hl Ha Hc H.
  destruct (mfa_not_verified (session st1)) eqn:Hg.
  - rewrite wrap_login_user_gate by done. appended_from H.
  - destruct (ctx_case u) as [k|] eqn:Hk.
    + eapply (appended_step _ _ _ _ _ H);
        [by apply wrap_login_user_trace_set with k|].
      simpl. by rewrite Hl, !Ha.
    + destruct (order_by_case_id_first (cases st1)) as [c|] eqn:Hf.
      * eapply (appended_step _ _ _ _ _ H);
          [by apply wrap_login_user_trace_first|].
        simpl. by rewrite Hl, !Ha, Hc.
      * rewrite wrap_login_user_trace_no_case by done.
        eapply (appended_step _ _ _ _ _ H);
          [simpl; rewrite <- app_assoc; reflexivity|].
        simpl. by rewrite Hl, Ha.
Qed.

Lemma appended__authenticate_password ok st st1 req form username pw :
  (forall e, is_ldap_call e = false -> ok e = true) ->
  appended ok st st1 ->
  appended ok st (snd (_authenticate_password env req form username pw st1)).
Proof.
  intros Hok H.
  unfold _authenticate_password, _retrieve_user_by_username. run.
  change (lookup_active username _) with (lookup_active username st1).
  destruct (lookup_active username st1) as [u|]; run.
  2: { eapply (appended_step _ _ _ _ _ H);
         [simpl; rewrite <- app_assoc; reflexivity|].
       simpl. by rewrite !Hok. }
  destruct (is_service_account u); run.
  { eapply (appended_step _ _ _ _ _ H); [reflexivity|]. simpl. by rewrite Hok. }
  assert (H1 : appended ok st
            (emit (ev_check_password_hash username)
               (emit (ev_get_active_user_by_login username) st1))).
  { eapply (appended_step _ _ _ _ _ H);
      [simpl; rewrite <- app_assoc; reflexivity|]. simpl. by rewrite !Hok. }
  destruct (check_password_hash env (password u) pw).
  - apply appended_wrap_login_user; try done; intros; by apply Hok.
  - run. eapply (appended_step _ _ _ _ _ H1); [reflexivity|].
    simpl. by rewrite Hok.
Qed.

End Appended.

(** X6. Local authentication rejects an unknown or inactive user, a
    service account and a wrong password with the same page; the session,
    the logged-in user and the user table are left alone.  The unknown
    user is audited, the wrong password is audited after the hash check,
    and a service account is rejected before any hash check, whatever the
    password, and without an audit entry. *)
Theorem authenticate_password_rejects env req form username pw st :
  (lookup_active username st = None ->
   _authenticate_password env req form username pw st
   = (Ok (render_login form (Some wrong_credentials)),
      emit (ev_track_activity (act_unknown_user username))
        (emit (ev_get_active_user_by_login username) st))) /\
  (forall u,
     lookup_active username st = Some u -> is_service_account u = true ->
     _authenticate_password env req form username pw st
     = (Ok (render_login form (Some wrong_credentials)),
        emit (ev_get_active_user_by_login username) st)) /\
  (forall u,
     lookup_active username st = Some u -> is_service_account u = false ->
     check_password_hash env (password u) pw = false ->
     _authenticate_password env req form username pw st
     = (Ok (render_login form (Some wrong_credentials)),
        emit (ev_track_activity (act_local_wrong username))
          (emit (ev_check_password_hash username)
             (emit (ev_get_active_user_by_login username) st)))).
Proof.
  split; [|split].
  - intros Hu. unfold _authenticate_password. unfold mbind, M_bind.
    by rewrite _retrieve_user_by_username_unknown.
  - intros u Hu Hs. unfold _authenticate_password. unfold mbind, M_bind.
    rewrite (_retrieve_user_by_username_found _ _ u) by done. by rewrite Hs.
  - intros u Hu Hs Hp. unfold _authenticate_password. unfold mbind, M_bind.
    rewrite (_retrieve_user_by_username_found _ _ u) by done. rewrite Hs.
    run. by rewrite Hp.
Qed.

Lemma authenticate_password_rejects_witness :
  _authenticate_password Demo.local_env (Demo.request None "dormant" "hash-d" None)
    (mkLoginForm "dormant" "hash-d" true true) "dormant" "hash-d"
    DemoMore.st_fresh
  = (Ok (render_login (mkLoginForm "dormant" "hash-d" true true)
                      (Some wrong_credentials)),
     emit (ev_track_activity (act_unknown_user "dormant"))
       (emit (ev_get_active_user_by_login "dormant") DemoMore.st_fresh)) /\
  _authenticate_password Demo.local_env (Demo.request None "svc" "hash-s" None)
    (mkLoginForm "svc" "hash-s" true true) "svc" "hash-s" DemoMore.st_fresh
  = (Ok (render_login (mkLoginForm "svc" "hash-s" true true)
                      (Some wrong_credentials)),
     emit (ev_get_active_user_by_login "svc") DemoMore.st_fresh) /\
  _authenticate_password Demo.local_env (Demo.request None "alice" "guess" None)
    (mkLoginForm "alice" "guess" true true) "alice" "guess" DemoMore.st_fresh
  = (Ok (render_login (mkLoginForm "alice" "guess" true true)
                      (Some wrong_credentials)),
     emit (ev_track_activity (act_local_wrong "alice"))
       (emit (ev_check_password_hash "alice")
          (emit (ev_get_active_user_by_login "alice") DemoMore.st_fresh))).
Proof.
  split; [|split].
  - exact (proj1 (authenticate_password_rejects Demo.local_env
             (Demo.request None "dormant" "hash-d" None)
             (mkLoginForm "dormant" "hash-d" true true) "dormant" "hash-d"
             DemoMore.st_fresh) eq_refl).
  - exact (proj1 (proj2 (authenticate_password_rejects Demo.local_env
             (Demo.request None "svc" "hash-s" None)
             (mkLoginForm "svc" "hash-s" true true) "svc" "hash-s"
             DemoMore.st_fresh)) DemoMore.svc eq_refl eq_refl).
  - exact (proj2 (proj2 (authenticate_password_rejects Demo.local_env
             (Demo.request None "alice" "guess" None)
             (mkLoginForm "alice" "guess" true true) "alice" "guess"
             DemoMore.st_fresh)) Demo.alice eq_refl eq_refl eq_refl).
Defined.

Section SamePassword.

Context (env : Env).

(** [wrap_login_user] reads the request for its [next] argument only. *)
Lemma wrap_login_user_next_only req1 req2 u st :
  args_next req1 = args_next req2 ->
  wrap_login_user env req1 u st = wrap_login_user env req2 u st.
Proof.
  intros H. unfold wrap_login_user, redirect_target, requested_next_url.
  by rewrite H.
Qed.

Lemma _authenticate_password_same_forms req1 req2 f1 f2 username p1 p2 st :
  args_next req1 = args_next req2 ->
  (forall h, check_password_hash env h p1 = check_password_hash env h p2) ->
  snd (_authenticate_password env req1 f1 username p1 st)
  = snd (_authenticate_password env req2 f2 username p2 st) /\
  (fst (_authenticate_password env req1 f1 username p1 st)
   = fst (_authenticate_password env req2 f2 username p2 st) \/
   exists msg,
     fst (_authenticate_password env req1 f1 username p1 st)
     = Ok (render_login f1 msg) /\
     fst (_authenticate_password env req2 f2 username p2 st)
     = Ok (render_login f2 msg)).
Proof.
  intros Hn Hh. unfold _authenticate_password. run.
  destruct (_retrieve_user_by_username username st) as [[[u|]|e] st1];
    [|split; [done|]; right; by eexists | by split; [|left]].
  destruct (is_service_account u); [split; [done|]; right; by eexists|]. run.
  rewrite Hh. destruct (check_password_hash env (password u) p2).
  - rewrite (wrap_login_user_next_only req1 req2) by done. by split; [|left].
  - split; [done|]. right. by eexists.
Qed.

Lemma _authenticate_ldap_same_forms req1 req2 f1 f2 username p1 p2 fb st :
  args_next req1 = args_next req2 ->
  ldap_authenticate env username p1 = ldap_authenticate env username p2 ->
  (forall h, check_password_hash env h p1 = check_password_hash env h p2) ->
  snd (_authenticate_ldap env req1 f1 username p1 fb st)
  = snd (_authenticate_ldap env req2 f2 username p2 fb st) /\
  (fst (_authenticate_ldap env req1 f1 username p1 fb st)
   = fst (_authenticate_ldap env req2 f2 username p2 fb st) \/
   exists msg,
     fst (_authenticate_ldap env req1 f1 username p1 fb st)
     = Ok (render_login f1 msg) /\
     fst (_authenticate_ldap env req2 f2 username p2 fb st)
     = Ok (render_login f2 msg)).
Proof.
  intros Hn Hl Hh. rewrite !_authenticate_ldap_try.
  destruct (ldap_authenticate env username p2) as [[|]|e] eqn:Hl2.
  - destruct (lookup_active username st) as [u|] eqn:Hu.
    + rewrite !(_authenticate_ldap_body_success env _ _ _ _ _ _ u) by done.
      rewrite (wrap_login_user_next_only req1 req2) by done.
      destruct (wrap_login_user _ _ _ _) as [[r|e] st1].
      * by split; [|left].
      * split; [done|]. right. by eexists.
    + unfold _authenticate_ldap_body, _retrieve_user_by_username. run.
      rewrite Hl, Hl2. simpl.
      change (lookup_active username _) with (lookup_active username st).
      rewrite Hu. split; [done|]. right. by eexists.
  - destruct (decide (fb = Some true)) as [->|Hfb].
    + rewrite !(_authenticate_ldap_body_fallback env) by done.
      match goal with |- context [_authenticate_password env req2 f2 _ _ ?s] =>
        destruct (_authenticate_password_same_forms req1 req2 f1 f2 username
                    p1 p2 s Hn Hh) as [Hs Hr] end.
      destruct (_authenticate_password env req1 _ _ _ _) as [[r1|e1] s1],
               (_authenticate_password env req2 _ _ _ _) as [[r2|e2] s2];
        simpl in *; subst s2.
      * by split.
      * by destruct Hr as [?|(msg & ? & ?)].
      * by destruct Hr as [?|(msg & ? & ?)].
      * destruct Hr as [[= ->]|(msg & ? & ?)]; [|done].
        split; [done|]. right. by eexists.
    + rewrite !(_authenticate_ldap_body_no_fallback env) by done.
      split; [done|]. right. by eexists.
  - rewrite !(_authenticate_ldap_body_fault env _ _ _ _ _ _ e) by done.
    split; [done|]. right. by eexists.
Qed.

End SamePassword.

(** X7. At /login the password reaches the directory call and the hash
    check, and apart from them only the form of a re-rendered login page.
    Two submissions that differ in the password alone, by passwords that
    no verifier tells apart, leave the same state, audit entries and server
    log included, and get the same response, or each the login page on its
    own form with the same message. *)
Theorem login_password_only_verified env req1 req2 st :
  args_next req1 = args_next req2 ->
  form_username (login_form req1) = form_username (login_form req2) ->
  is_submitted (login_form req1) = is_submitted (login_form req2) ->
  validate (login_form req1) = validate (login_form req2) ->
  ldap_authenticate env (form_username (login_form req1))
    (form_password (login_form req1))
  = ldap_authenticate env (form_username (login_form req1))
      (form_password (login_form req2)) ->
  (forall h, check_password_hash env h (form_password (login_form req1))
             = check_password_hash env h (form_password (login_form req2))) ->
  snd (login env req1 st) = snd (login env req2 st) /\
  (fst (login env req1 st) = fst (login env req2 st) \/
   exists msg,
     fst (login env req1 st) = Ok (render_login (login_form req1) msg) /\
     fst (login env req2 st) = Ok (render_login (login_form req2) msg)).
Proof.
  intros Hn Hu Hsub Hval Hl Hh. unfold login. run.
  match goal with |- context [current_user_obj ?s] =>
    change (current_user_obj s) with (current_user_obj st) end.
  destruct (current_user_obj st); [by split; [|left]|].
  rewrite <- Hsub, <- Hval, <- Hu.
  destruct (negb _ && negb _); [split; [done|]; right; by eexists|].
  destruct (is_authentication_ldap env).
  - by apply _authenticate_ldap_same_forms.
  - by apply _authenticate_password_same_forms.
Qed.

Lemma login_password_only_verified_witness :
  snd (login (DemoMore.length_env true (Some true))
         (Demo.request None "alice" "secret" None) DemoMore.st_verified)
  = snd (login (DemoMore.length_env true (Some true))
           (Demo.request None "alice" "hash-a" None) DemoMore.st_verified) /\
  fst (login (DemoMore.length_env true (Some true))
         (Demo.request None "alice" "secret" None) DemoMore.st_verified)
  = fst (login (DemoMore.length_env true (Some true))
           (Demo.request None "alice" "hash-a" None) DemoMore.st_verified) /\
  snd (login (DemoMore.length_env false None)
         (Demo.request None "alice" "wrong" None) DemoMore.st_fresh)
  = snd (login (DemoMore.length_env false None)
           (Demo.request None "alice" "WRONG" None) DemoMore.st_fresh).
Proof.
  pose proof (login_password_only_verified (DemoMore.length_env true (Some true))
                (Demo.request None "alice" "secret" None)
                (Demo.request None "alice" "hash-a" None) DemoMore.st_verified
                eq_refl eq_refl eq_refl eq_refl eq_refl (fun h => eq_refl))
    as [Hs Hr].
  split; [exact Hs|]. split.
  - destruct Hr as [Hr|(msg & Hr & _)]; [exact Hr | discriminate Hr].
  - exact (proj1 (login_password_only_verified (DemoMore.length_env false None)
                    (Demo.request None "alice" "wrong" None)
                    (Demo.request None "alice" "WRONG" None) DemoMore.st_fresh
                    eq_refl eq_refl eq_refl eq_refl eq_refl (fun h => eq_refl))).
Defined.

(** X8. A successful directory authentication is not enough: when no
    active local user has the name, [_authenticate_ldap] audits the
    unknown user and answers with the wrong-credentials page. *)
Theorem authenticate_ldap_requires_local_user env req form username pw fb st :
  ldap_authenticate env username pw = Ok true ->
  lookup_active username st = None ->
  _authenticate_ldap env req form username pw fb st
  = (Ok (render_login form (Some wrong_credentials)),
     emit (ev_track_activity (act_unknown_user username))
       (emit (ev_get_active_user_by_login username)
          (emit (ev_ldap_authenticate username) st))).
Proof.
  intros Hl Hu. rewrite _authenticate_ldap_try.
  unfold _authenticate_ldap_body. run. rewrite Hl. simpl.
  unfold mbind, M_bind.
  by rewrite _retrieve_user_by_username_unknown.
Qed.

Lemma authenticate_ldap_requires_local_user_witness :
  fst (_authenticate_ldap (Demo.env (Ok true) None true (Some true))
         (Demo.request None "dormant" "x" None)
         (mkLoginForm "dormant" "x" true true) "dormant" "x" (Some true)
         DemoMore.st_verified)
  = Ok (render_login (mkLoginForm "dormant" "x" true true)
                     (Some wrong_credentials)).
Proof.
  exact (f_equal fst (authenticate_ldap_requires_local_user
           (Demo.env (Ok true) None true (Some true))
           (Demo.request None "dormant" "x" None)
           (mkLoginForm "dormant" "x" true true) "dormant" "x" (Some true)
           DemoMore.st_verified eq_refl eq_refl)).
Defined.

Section LoginFacts.

Context (env : Env).

Lemma appended__authenticate_ldap_no_hash st st1 req form username pw fb :
  fb <> Some true \/ ldap_authenticate env username pw <> Ok false ->
  appended (fun e => negb (is_hash_check e)) st st1 ->
  appended (fun e => negb (is_hash_check e)) st
    (snd (_authenticate_ldap env req form username pw fb st1)).
Proof.
  intros Hno H. rewrite _authenticate_ldap_try.
  destruct (ldap_authenticate env username pw) as [[|]|e] eqn:Hl.
  - destruct (lookup_active username st1) as [u|] eqn:Hu.
    + rewrite (_authenticate_ldap_body_success env _ _ _ _ _ _ u) by done.
      assert (H1 : appended (fun e => negb (is_hash_check e)) st
                (emit (ev_get_active_user_by_login username)
                   (emit (ev_ldap_authenticate username) st1))).
      { eapply (appended_step _ _ _ _ _ H);
          [simpl; rewrite <- app_assoc; reflexivity | done]. }
      apply (appended_wrap_login_user env _ _ _ req u) in H1; try done.
      destruct (wrap_login_user _ _ _ _) as [[r|e] st2]; [done|].
      eapply (appended_step _ _ _ _ _ H1); [reflexivity | done].
    + unfold _authenticate_ldap_body, _retrieve_user_by_username. run.
      rewrite Hl. simpl.
      change (lookup_active username _) with (lookup_active username st1).
      rewrite Hu. eapply (appended_step _ _ _ _ _ H);
        [simpl; rewrite <- !app_assoc; reflexivity | done].
  - destruct Hno as [Hfb|Hne]; [|done].
    rewrite (_authenticate_ldap_body_no_fallback env) by done.
    eapply (appended_step _ _ _ _ _ H);
      [simpl; rewrite <- !app_assoc; reflexivity | done].
  - rewrite (_authenticate_ldap_body_fault env _ _ _ _ _ _ _ Hl).
    eapply (appended_step _ _ _ _ _ H);
      [simpl; rewrite <- !app_assoc; reflexivity | done].
Qed.

(** What the two credential checks can answer with. *)
Lemma _authenticate_password_response req form username pw st r :
  fst (_authenticate_password env req form username pw st) = Ok r ->
  r = render_login form (Some wrong_credentials) \/ exists t, r = redirect t.
Proof.
  unfold _authenticate_password. run.
  destruct (_retrieve_user_by_username username st) as [[[u|]|e] st1];
    simpl; [| intros [= <-]; by left | done].
  destruct (is_service_account u); [intros [= <-]; by left|]. run.
  destruct (check_password_hash env (password u) pw).
  - intros Hr. right. by eapply wrap_login_user_response.
  - run. intros [= <-]. by left.
Qed.

Lemma _authenticate_ldap_response req form username pw fb st r :
  fst (_authenticate_ldap env req form username pw fb st) = Ok r ->
  r = render_login form (Some wrong_credentials) \/
  r = render_login form (Some ldap_unavailable) \/
  exists t, r = redirect t.
Proof.
  rewrite _authenticate_ldap_try.
  destruct (_authenticate_ldap_body env req form username pw fb st)
    as [[r'|e] st1] eqn:E; simpl; [|intros [= <-]; auto].
  intros [= ->]. revert E. unfold _authenticate_ldap_body. run.
  destruct (ldap_authenticate env username pw) as [[|]|e]; simpl; [| |done].
  - destruct (_retrieve_user_by_username username _) as [[[u|]|e] st2];
      simpl; [| intros [= <- _]; auto | done].
    intros E. right. right.
    eapply (wrap_login_user_response env req u st2). by rewrite E.
  - destruct fb as [[|]|]; run; try (intros [= <- _]; by auto).
    intros E.
    destruct (_authenticate_password_response req form username pw
                (emit (ev_track_activity (act_ldap_wrong_fallback username))
                   (emit (ev_ldap_authenticate username) st)) r) as [->|Ht];
      [by rewrite E | auto | auto].
Qed.

End LoginFacts.

(** X9. The configured mode decides which verifier is called.  In local
    mode [login] never calls the directory.  In directory mode it checks no
    local password hash unless the fallback is allowed and the directory
    reported a failed authentication. *)
Theorem login_mode_respected env req st :
  (is_authentication_ldap env = false ->
   appended (fun e => negb (is_ldap_call e)) st (snd (login env req st))) /\
  (is_authentication_ldap env = true ->
   AUTHENTICATION_LOCAL_FALLBACK env <> Some true \/
   ldap_authenticate env (form_username (login_form req))
     (form_password (login_form req)) <> Ok false ->
   appended (fun e => negb (is_hash_check e)) st (snd (login env req st))).
Proof.
  split.
  - intros Hmode. unfold login. run.
    match goal with |- context [current_user_obj ?s] =>
      change (current_user_obj s) with (current_user_obj st) end.
    assert (H : appended (fun e => negb (is_ldap_call e)) st
              (mkState (session st) true (current_user st) (users st)
                       (cases st) (trace st))).
    { exists []. by rewrite app_nil_r. }
    destruct (current_user_obj st); [done|].
    destruct (negb _ && negb _); [done|]. rewrite Hmode.
    apply appended__authenticate_password; [|done].
    by intros e ->.
  - intros Hmode Hno. unfold login. run.
    match goal with |- context [current_user_obj ?s] =>
      change (current_user_obj s) with (current_user_obj st) end.
    assert (H : appended (fun e => negb (is_hash_check e)) st
              (mkState (session st) true (current_user st) (users st)
                       (cases st) (trace st))).
    { exists []. by rewrite app_nil_r. }
    destruct (current_user_obj st); [done|].
    destruct (negb _ && negb _); [done|]. rewrite Hmode.
    by apply appended__authenticate_ldap_no_hash.
Qed.

Lemma login_mode_respected_witness :
  appended (fun e => negb (is_ldap_call e)) DemoMore.st_verified
    (snd (login Demo.local_env (Demo.request None "alice" "hash-a" None)
            DemoMore.st_verified)) /\
  appended (fun e => negb (is_hash_check e)) DemoMore.st_verified
    (snd (login (Demo.env (Ok false) None true (Some false))
            (Demo.request None "alice" "hash-a" None) DemoMore.st_verified)).
Proof.
  split.
  - exact (proj1 (login_mode_respected Demo.local_env
             (Demo.request None "alice" "hash-a" None) DemoMore.st_verified)
             eq_refl).
  - refine (proj2 (login_mode_respected
             (Demo.env (Ok false) None true (Some false))
             (Demo.request None "alice" "hash-a" None) DemoMore.st_verified)
             eq_refl (or_introl _)).
    discriminate.
Defined.

(** X10. [login] answers with the login page without a message exactly
    when the visitor is not logged in and the form is neither submitted
    nor valid; a submitted form goes to the credential check even when its
    validation fails. *)
Theorem login_blank_page_iff env req st :
  fst (login env req st) = Ok (render_login (login_form req) None) <->
  current_user_obj st = None /\
  is_submitted (login_form req) = false /\ validate (login_form req) = false.
Proof.
  unfold login. run.
  match goal with |- context [current_user_obj ?s] =>
    change (current_user_obj s) with (current_user_obj st) end.
  destruct (current_user_obj st) as [cu|]; [by split; [|intros [? _]]|].
  destruct (is_submitted (login_form req)), (validate (login_form req));
    simpl; try (split; [|by intros (_ & ? & ?)]); try done.
  all: destruct (is_authentication_ldap env).
  all: intros Hr;
    first [ apply _authenticate_ldap_response in Hr as [?|[?|[? ?]]]
          | apply _authenticate_password_response in Hr as [?|[? ?]] ];
    done.
Qed.

(** X11. The marker belongs to the session, not to a user: in a session
    whose marker is true, a local login with the right password logs the
    user in and writes the user name and the permissions to the session,
    whatever the user's MFA secret and [mfa_enabled] are, and no token is
    asked for. *)
Theorem login_marker_skips_second_factor env req st u :
  is_authentication_ldap env = false ->
  current_user_obj st = None ->
  sess_mfa_verified (session st) = Some true ->
  is_submitted (login_form req) = true ->
  lookup_active (form_username (login_form req)) st = Some u ->
  is_service_account u = false ->
  check_password_hash env (password u) (form_password (login_form req)) = true ->
  let res := login env req st in
  current_user (snd res) = Some (user u) /\
  sess_username (session (snd res)) = Some (user u) /\
  (forall r, fst res = Ok r -> exists t, r = redirect t /\ t <> url_for "mfa_verify" None /\ t <> url_for "mfa_setup" None).
Proof.
  intros Hmode Hcu Hm Hsub Hu Hsvc Hpw res. subst res.
  unfold login. run.
  match goal with |- context [current_user_obj ?s] =>
    change (current_user_obj s) with (current_user_obj st) end.
  rewrite Hcu, Hsub, Hmode. simpl.
  unfold _authenticate_password. unfold mbind, M_bind.
  rewrite (_retrieve_user_by_username_found _ _ u) by done.
  rewrite Hsvc. run. rewrite Hpw.
  match goal with |- context [wrap_login_user env req u ?s] => set (st1 := s) end.
  assert (Hg : mfa_not_verified (session st1) = false)
    by by apply marker_true_not_gated.
  split; [by apply wrap_login_user_current_user|].
  split; [apply wrap_login_user_sets_username|].
  intros r. rewrite wrap_login_user_unfold by done.
  destruct (resolve_case u _) as [[u'|e] st2] eqn:Er; [|done].
  assert (Hc : exists k, ctx_case u' = Some k).
  { revert Er. unfold resolve_case. destruct (ctx_case u) as [k|] eqn:Hk.
    - intros [= <- _]. eauto.
    - run. destruct (order_by_case_id_first _); [|done]. intros [= <- _]. eauto. }
  destruct Hc as [k Hk].
  unfold redirect_target. destruct (requested_next_url req u') as [n|].
  - destruct (Py.not_ (Some n)); run.
    + intros [= <-]. eexists. by rewrite Hk.
    + destruct (UrlSplit.netloc _ n); [|done]. destruct (negb _); simpl.
      * intros [= <-]. eexists. by rewrite Hk.
      * intros [= <-]. by eexists.
  - simpl. intros [= <-]. eexists. by rewrite Hk.
Qed.

Lemma login_marker_skips_second_factor_witness :
  current_user (snd (login Demo.local_env
                       (Demo.request None "carol" "hash-c" None)
                       DemoMore.st_verified)) = Some "carol" /\
  fst (login Demo.local_env (Demo.request None "carol" "hash-c" None)
         DemoMore.st_verified)
  = Ok (redirect (url_for "index.index" (Some 3))).
Proof.
  pose proof (login_marker_skips_second_factor Demo.local_env
                (Demo.request None "carol" "hash-c" None) DemoMore.st_verified
                Demo.carol eq_refl eq_refl eq_refl eq_refl eq_refl eq_refl
                eq_refl) as (Hcu & _ & _).
  split; [exact Hcu | reflexivity].
Defined.

Section MfaFacts.

Context (env : Env).

(** The session a finalization leaves. *)
Lemma wrap_login_user_session req u st cid :
  mfa_not_verified (session st) = false ->
  resolved_case_id u st = Some cid ->
  cc_case_id <$> sess_current_case (session (snd (wrap_login_user env req u st)))
  = Some (Some cid) /\
  sess_mfa_verified (session (snd (wrap_login_user env req u st)))
  = sess_mfa_verified (session st).
Proof.
  intros Hg Hr. rewrite wrap_login_user_state by done.
  unfold resolved_case_id in Hr. destruct (ctx_case u) as [k|] eqn:Hk.
  - injection Hr as ->. rewrite (resolve_case_set _ _ _ Hk). simpl.
    by rewrite Hk.
  - destruct (order_by_case_id_first (cases st)) as [c|] eqn:Hc; [|done].
    injection Hr as <-.
    by rewrite (resolve_case_first u (st_logged_in env u st) c Hk Hc).
Qed.

(** The row of the user [wrap_login_user] is given: the case context
    apart, it stays as it is. *)
Lemma wrap_login_user_row req u st :
  users st !! user u = Some u ->
  exists u',
    users (snd (wrap_login_user env req u st)) !! user u = Some u' /\
    user u' = user u /\ mfa_secrets u' = mfa_secrets u /\
    mfa_enabled u' = mfa_enabled u.
Proof.
  intros Hrow. destruct (mfa_not_verified (session st)) eqn:Hg.
  { rewrite wrap_login_user_gate by done. by exists u. }
  rewrite wrap_login_user_state by done.
  unfold resolve_case. destruct (ctx_case u); [by exists u|]. run.
  destruct (order_by_case_id_first _) as [c|]; [|by exists u].
  simpl. eexists. by rewrite lookup_insert_eq.
Qed.

Lemma wrap_login_user_keeps_current_user req u st :
  current_user st = Some (user u) ->
  current_user (snd (wrap_login_user env req u st)) = Some (user u).
Proof.
  intros Hcu. destruct (mfa_not_verified (session st)) eqn:Hg.
  - by rewrite wrap_login_user_gate.
  - by apply wrap_login_user_current_user.
Qed.

(** The row of the logged-in user after a submission to /auth/mfa-setup. *)
Lemma mfa_setup_row req st u :
  current_user st = Some (user u) -> users st !! user u = Some u ->
  mfa_submit (mfa_form req) && mfa_validate (mfa_form req) = true ->
  exists u',
    current_user (snd (mfa_setup env req st)) = Some (user u) /\
    users (snd (mfa_setup env req st)) !! user u = Some u' /\
    user u' = user u /\
    mfa_secrets u' = mfa_secrets (with_secret env u) /\
    mfa_enabled u'
    = mfa_enabled u ||
      totp_verify env (mfa_secrets (with_secret env u)) (token (mfa_form req)).
Proof.
  intros Hcu Hrow Hform.
  assert (Hobj : current_user_obj st = Some u).
  { unfold current_user_obj. by rewrite Hcu. }
  destruct (totp_verify env (mfa_secrets (with_secret env u)) (token (mfa_form req)))
    eqn:Ht.
  - rewrite (mfa_setup_verified env req st u) by done.
    assert (Hname : user (enrolled env u) = user u) by apply (with_secret_user env).
    assert (Hrow' : users (st_enrolled env u st) !! user u = Some (enrolled env u)).
    { unfold st_enrolled. simpl. apply lookup_insert_eq. }
    assert (Hcu' : current_user (st_enrolled env u st) = Some (user u)).
    { unfold st_enrolled, st_secret. simpl. by destruct (Py.not_ _). }
    exists (enrolled env u). rewrite orb_true_r.
    destruct (mfa_not_verified (session (st_enrolled env u st))) eqn:Hg.
    + by rewrite wrap_login_user_proxy_gate.
    + rewrite wrap_login_user_proxy_raise by done. cbn [snd].
      change (current_user (emit _ (mkState _ _ ?c _ _ _))) with c.
      change (users (emit _ (mkState _ _ _ (users ?s) _ _))) with (users s).
      by rewrite Hname.
  - rewrite orb_false_r. unfold mfa_setup. run. rewrite Hobj, Hform.
    unfold with_secret in *.
    destruct (Py.not_ (mfa_secrets u)) eqn:E; run; simpl in Ht; rewrite Ht; run.
    + eexists. by rewrite lookup_insert_eq.
    + by exists u.
Qed.

End MfaFacts.

(** X12. The two steps of a login compose.  A visitor who is not logged
    in, in a session whose marker is unset or false, submits the right
    password: the answer is a redirect to /auth/mfa-verify and nobody is
    logged in.  A token accepted there then logs the user in, sets the
    marker, puts the user name and the resolved case in the session and
    redirects to the landing page. *)
Theorem login_then_mfa_verify env req1 req2 st u cid a :
  is_authentication_ldap env = false -> anonymous_user env = Some a ->
  current_user_obj st = None -> mfa_not_verified (session st) = true ->
  is_submitted (login_form req1) = true ->
  lookup_active (form_username (login_form req1)) st = Some u ->
  user u = form_username (login_form req1) ->
  is_service_account u = false ->
  check_password_hash env (password u) (form_password (login_form req1)) = true ->
  token_accepted env req2 u = true ->
  resolved_case_id u st = Some cid ->
  args_next req2 = None ->
  let step1 := login env req1 st in
  let step2 := mfa_verify env req2 (snd step1) in
  fst step1 = Ok (redirect (url_for "mfa_verify" None)) /\
  current_user (snd step1) = current_user st /\
  fst step2 = Ok (redirect (url_for "index.index" (Some cid))) /\
  current_user (snd step2) = Some (user u) /\
  sess_mfa_verified (session (snd step2)) = Some true /\
  sess_username (session (snd step2)) = Some (user u) /\
  cc_case_id <$> sess_current_case (session (snd step2)) = Some (Some cid).
Proof.
  intros Hmode Han Hcu Hg Hsub Hu Hkey Hsvc Hpw Htok Hr Hnext step1 step2.
  assert (H1 : step1 =
            (Ok (redirect (url_for "mfa_verify" None)),
             with_session (set_username (Some (user u)))
               (emit (ev_check_password_hash (form_username (login_form req1)))
                  (emit (ev_get_active_user_by_login (form_username (login_form req1)))
                     (mkState (session st) true (current_user st) (users st)
                              (cases st) (trace st)))))).
  { subst step1. unfold login. run.
    match goal with |- context [current_user_obj ?s] =>
      change (current_user_obj s) with (current_user_obj st) end.
    rewrite Hcu, Hsub, Hmode. simpl.
    unfold _authenticate_password. unfold mbind, M_bind.
    rewrite (_retrieve_user_by_username_found _ _ u) by done.
    rewrite Hsvc. run. rewrite Hpw.
    by rewrite wrap_login_user_gate. }
  subst step2. rewrite H1. simpl fst. simpl snd.
  split; [done|]. split; [done|].
  match goal with |- context [mfa_verify env req2 ?s] => set (st1 := s) end.
  assert (Hu1 : lookup_active (user u) st1 = Some u) by by rewrite Hkey.
  rewrite (mfa_verify_accepted env req2 st1 (user u) u eq_refl Hu1 Htok).
  cbv zeta.
  match goal with |- context [current_user_user env ?s] => set (st2 := s) end.
  assert (Hwho : current_user_user env st2 = (Ok a, st2)).
  { unfold current_user_user. run.
    change (current_user_obj st2) with (current_user_obj st).
    by rewrite Hcu, Han. }
  rewrite Hwho.
  match goal with |- context [wrap_login_user env req2 u ?s] => set (st3 := s) end.
  assert (Hg3 : mfa_not_verified (session st3) = false) by done.
  split.
  { apply wrap_login_user_landing; [done | by left | done]. }
  split; [by apply wrap_login_user_current_user|].
  destruct (wrap_login_user_session env req2 u st3 cid Hg3 Hr) as [Hcase Hmark].
  split; [by rewrite Hmark|].
  split; [apply wrap_login_user_sets_username | done].
Qed.

Lemma login_then_mfa_verify_witness :
  let env := Demo.env (Ok false) (Some "Anonymous") false None in
  let step1 := login env (Demo.request None "alice" "hash-a" None)
                 (Demo.st_fresh Demo.two_cases) in
  let step2 := mfa_verify env (Demo.request None "" "" (Some "492039"))
                 (snd step1) in
  fst step1 = Ok (redirect (url_for "mfa_verify" None)) /\
  fst step2 = Ok (redirect (url_for "index.index" (Some 3))) /\
  current_user (snd step2) = Some "alice".
Proof.
  pose proof (login_then_mfa_verify
                (Demo.env (Ok false) (Some "Anonymous") false None)
                (Demo.request None "alice" "hash-a" None)
                (Demo.request None "" "" (Some "492039"))
                (Demo.st_fresh Demo.two_cases) Demo.alice 3 "Anonymous"
                eq_refl eq_refl eq_refl eq_refl eq_refl eq_refl eq_refl eq_refl
                eq_refl eq_refl eq_refl eq_refl)
    as (H1 & _ & H2 & H3 & _).
  split; [exact H1|]. split; [exact H2 | exact H3].
Defined.

(** X13. A request to /auth/mfa-verify that does not complete MFA leaves
    the pending user name in the session and the user table as they were;
    when a user name is pending, it leaves the marker false, also in a
    session whose marker was true; when none is, it changes nothing. *)
Theorem mfa_verify_rejected env req st :
  mfa_completes env route_mfa_verify req st = false ->
  let st' := snd (mfa_verify env req st) in
  sess_username (session st') = sess_username (session st) /\
  users st' = users st /\
  (forall username, sess_username (session st) = Some username ->
     sess_mfa_verified (session st') = Some false) /\
  (sess_username (session st) = None -> st' = st).
Proof.
  intros Hc st'. subst st'.
  unfold mfa_completes, token_accepted in Hc.
  unfold mfa_verify, _retrieve_user_by_username. run.
  destruct (sess_username (session st)) as [username|] eqn:Hn; [|done].
  change (lookup_active username _) with (lookup_active username st).
  destruct (lookup_active username st) as [u|]; run; [|done].
  destruct (Py.not_ (mfa_secrets u)) eqn:Hs.
  - unfold current_user_user. run.
    match goal with |- context [current_user_obj ?s] =>
      destruct (current_user_obj s) end; run; [done|].
    destruct (anonymous_user env); run; done.
  - destruct (mfa_submit (mfa_form req) && mfa_validate (mfa_form req)); [|done].
    destruct (Py.not_ (token (mfa_form req))); run; [done|].
    simpl in Hc. rewrite Hc.
    unfold current_user_user. run.
    match goal with |- context [current_user_obj ?s] =>
      destruct (current_user_obj s) end; run; [done|].
    destruct (anonymous_user env); run; done.
Qed.

Lemma mfa_verify_rejected_witness :
  sess_username
    (session (snd (mfa_verify Demo.local_env
                     (Demo.request None "" "" (Some "000000"))
                     (mkState (mkSession (Some "alice") (Some true) None None)
                              true (Some "alice") Demo.user_table
                              Demo.two_cases []))))
  = Some "alice" /\
  sess_mfa_verified
    (session (snd (mfa_verify Demo.local_env
                     (Demo.request None "" "" (Some "000000"))
                     (mkState (mkSession (Some "alice") (Some true) None None)
                              true (Some "alice") Demo.user_table
                              Demo.two_cases []))))
  = Some false.
Proof.
  pose proof (mfa_verify_rejected Demo.local_env
                (Demo.request None "" "" (Some "000000"))
                (mkState (mkSession (Some "alice") (Some true) None None)
                         true (Some "alice") Demo.user_table Demo.two_cases [])
                eq_refl) as (Hn & _ & Hm & _).
  split; [exact Hn | exact (Hm "alice" eq_refl)].
Defined.

(** X14. The MFA secret is generated once.  A submission to
    /auth/mfa-setup leaves the logged-in user's row with the secret it
    had, or, if it had none, with a new one, committed whether or not the
    token verifies; a second submission keeps that secret, whatever a new
    draw would give. *)
Theorem mfa_setup_secret_once env env2 req req2 st u :
  current_user st = Some (user u) -> users st !! user u = Some u ->
  mfa_submit (mfa_form req) && mfa_validate (mfa_form req) = true ->
  mfa_submit (mfa_form req2) && mfa_validate (mfa_form req2) = true ->
  Py.truthy (random_base32 env) = true ->
  let st1 := snd (mfa_setup env req st) in
  let st2 := snd (mfa_setup env2 req2 st1) in
  exists u1 u2,
    users st1 !! user u = Some u1 /\ users st2 !! user u = Some u2 /\
    mfa_secrets u1
    = (if Py.not_ (mfa_secrets u) then Some (random_base32 env) else mfa_secrets u) /\
    mfa_secrets u2 = mfa_secrets u1.
Proof.
  intros Hcu Hrow Hf Hf2 Hrand st1 st2.
  destruct (mfa_setup_row env req st u Hcu Hrow Hf)
    as (u1 & Hcu1 & Hrow1 & Hu1 & Hs1 & _).
  rewrite <- Hu1 in Hcu1, Hrow1.
  destruct (mfa_setup_row env2 req2 st1 u1 Hcu1 Hrow1 Hf2)
    as (u2 & _ & Hrow2 & _ & Hs2 & _).
  rewrite Hu1 in Hrow1, Hrow2.
  exists u1, u2. split; [done|]. split; [done|].
  assert (Hs1' : mfa_secrets u1 =
            if Py.not_ (mfa_secrets u) then Some (random_base32 env)
            else mfa_secrets u).
  { rewrite Hs1. unfold with_secret. by destruct (Py.not_ (mfa_secrets u)). }
  split; [done|].
  rewrite Hs2. unfold with_secret.
  assert (Hn : Py.not_ (mfa_secrets u1) = false).
  { rewrite Hs1'. destruct (Py.not_ (mfa_secrets u)) eqn:E; [|done].
    simpl. by rewrite Hrand. }
  by rewrite Hn.
Qed.

Lemma mfa_setup_secret_once_witness :
  exists u1 u2,
    users (snd (mfa_setup Demo.local_env (Demo.request None "" "" (Some "000000"))
                  (Demo.st_pending "carol" (Some "carol")))) !! "carol" = Some u1 /\
    users (snd (mfa_setup (Demo.env (Ok false) None false None)
                  (Demo.request None "" "" (Some "492039"))
                  (snd (mfa_setup Demo.local_env
                          (Demo.request None "" "" (Some "000000"))
                          (Demo.st_pending "carol" (Some "carol"))))))
      !! "carol" = Some u2 /\
    mfa_secrets u1 = Some "JBSWY3DPEHPK3PXP" /\
    mfa_secrets u2 = mfa_secrets u1.
Proof.
  exact (mfa_setup_secret_once Demo.local_env (Demo.env (Ok false) None false None)
           (Demo.request None "" "" (Some "000000"))
           (Demo.request None "" "" (Some "492039"))
           (Demo.st_pending "carol" (Some "carol")) Demo.carol
           eq_refl eq_refl eq_refl eq_refl eq_refl).
Defined.

(** X15. /auth/mfa-setup sets [mfa_enabled] on the logged-in user's row
    exactly when a submitted token verifies; it never clears it, and a
    request that submits nothing changes nothing. *)
Theorem mfa_setup_enables_on_verified_token env req st u :
  current_user st = Some (user u) -> users st !! user u = Some u ->
  let st' := snd (mfa_setup env req st) in
  (mfa_submit (mfa_form req) && mfa_validate (mfa_form req) = false -> st' = st) /\
  (mfa_submit (mfa_form req) && mfa_validate (mfa_form req) = true ->
   exists u',
     users st' !! user u = Some u' /\
     mfa_enabled u'
     = mfa_enabled u ||
       totp_verify env (mfa_secrets (with_secret env u)) (token (mfa_form req))).
Proof.
  intros Hcu Hrow st'. subst st'. split.
  - intros Hf. unfold mfa_setup. run.
    unfold current_user_obj. rewrite Hcu, Hrow. by rewrite Hf.
  - intros Hf.
    destruct (mfa_setup_row env req st u Hcu Hrow Hf)
      as (u' & _ & Hrow' & _ & _ & He).
    by exists u'.
Qed.

Lemma mfa_setup_enables_on_verified_token_witness :
  (exists u',
     users (snd (mfa_setup Demo.local_env (Demo.request None "" "" (Some "000000"))
                   (Demo.st_pending "bob" (Some "bob")))) !! "bob" = Some u' /\
     mfa_enabled u' = false) /\
  (exists u',
     users (snd (mfa_setup Demo.local_env (Demo.request None "" "" (Some "492039"))
                   (Demo.st_pending "bob" (Some "bob")))) !! "bob" = Some u' /\
     mfa_enabled u' = true).
Proof.
  split.
  - exact (proj2 (mfa_setup_enables_on_verified_token Demo.local_env
             (Demo.request None "" "" (Some "000000"))
             (Demo.st_pending "bob" (Some "bob")) Demo.bob eq_refl eq_refl)
             eq_refl).
  - exact (proj2 (mfa_setup_enables_on_verified_token Demo.local_env
             (Demo.request None "" "" (Some "492039"))
             (Demo.st_pending "bob" (Some "bob")) Demo.bob eq_refl eq_refl)
             eq_refl).
Defined.

Section MarkerFacts.

Context (env : Env).

Lemma wrap_login_user_marker req u st :
  sess_mfa_verified (session (snd (wrap_login_user env req u st)))
  = sess_mfa_verified (session st).
Proof.
  destruct (mfa_not_verified (session st)) eqn:Hg.
  - by rewrite wrap_login_user_gate.
  - rewrite wrap_login_user_state by done.
    unfold resolve_case. destruct (ctx_case u); [done|]. run.
    by destruct (order_by_case_id_first _).
Qed.

Lemma _authenticate_password_marker req form username pw st :
  sess_mfa_verified
    (session (snd (_authenticate_password env req form username pw st)))
  = sess_mfa_verified (session st).
Proof.
  unfold _authenticate_password, _retrieve_user_by_username. run.
  change (lookup_active username _) with (lookup_active username st).
  destruct (lookup_active username st) as [u|]; run; [|done].
  destruct (is_service_account u); run; [done|].
  destruct (check_password_hash env (password u) pw); [|done].
  by rewrite wrap_login_user_marker.
Qed.

Lemma _authenticate_ldap_marker req form username pw fb st :
  sess_mfa_verified
    (session (snd (_authenticate_ldap env req form username pw fb st)))
  = sess_mfa_verified (session st).
Proof.
  rewrite _authenticate_ldap_try.
  destruct (ldap_authenticate env username pw) as [[|]|e] eqn:Hl.
  - destruct (lookup_active username st) as [u|] eqn:Hu.
    + rewrite (_authenticate_ldap_body_success env _ _ _ _ _ _ u) by done.
      pose proof (wrap_login_user_marker req u
                    (emit (ev_get_active_user_by_login username)
                       (emit (ev_ldap_authenticate username) st))) as H.
      by destruct (wrap_login_user _ _ _ _) as [[r|e] st2].
    + unfold _authenticate_ldap_body, _retrieve_user_by_username. run.
      rewrite Hl. simpl.
      change (lookup_active username _) with (lookup_active username st).
      by rewrite Hu.
  - destruct (decide (fb = Some true)) as [->|Hfb].
    + rewrite (_authenticate_ldap_body_fallback env) by done.
      pose proof (_authenticate_password_marker req form username pw
                    (emit (ev_track_activity (act_ldap_wrong_fallback username))
                       (emit (ev_ldap_authenticate username) st))) as H.
      by destruct (_authenticate_password _ _ _ _ _ _) as [[r|e] st2].
    + by rewrite (_authenticate_ldap_body_no_fallback env).
  - by rewrite (_authenticate_ldap_body_fault env _ _ _ _ _ _ _ Hl).
Qed.

Lemma login_marker req st :
  sess_mfa_verified (session (snd (login env req st)))
  = sess_mfa_verified (session st).
Proof.
  unfold login. run.
  match goal with |- context [current_user_obj ?s] =>
    change (current_user_obj s) with (current_user_obj st) end.
  destruct (current_user_obj st); [done|].
  destruct (negb _ && negb _); [done|].
  destruct (is_authentication_ldap env).
  - by rewrite _authenticate_ldap_marker.
  - by rewrite _authenticate_password_marker.
Qed.

Lemma wrap_login_user_proxy_marker u st :
  sess_mfa_verified (session (snd (wrap_login_user_proxy u st)))
  = sess_mfa_verified (session st).
Proof.
  destruct (mfa_not_verified (session st)) eqn:Hg.
  - by rewrite wrap_login_user_proxy_gate.
  - by rewrite wrap_login_user_proxy_raise.
Qed.

Lemma mfa_setup_marker req st :
  sess_mfa_verified (session (snd (mfa_setup env req st)))
  = sess_mfa_verified (session st).
Proof.
  unfold mfa_setup. run.
  destruct (current_user_obj st) as [u|]; [|done].
  destruct (mfa_submit (mfa_form req) && mfa_validate (mfa_form req)); [|done].
  destruct (Py.not_ (mfa_secrets u)); run.
  - destruct (totp_verify env _ _); run; [|done].
    unfold current_user_user. run.
    match goal with |- context [current_user_obj ?s] =>
      destruct (current_user_obj s) end.
    + by rewrite wrap_login_user_proxy_marker.
    + destruct (anonymous_user env); [|done]. by rewrite wrap_login_user_proxy_marker.
  - destruct (totp_verify env _ _); run; [|done].
    unfold current_user_user. run.
    match goal with |- context [current_user_obj ?s] =>
      destruct (current_user_obj s) end.
    + by rewrite wrap_login_user_proxy_marker.
    + destruct (anonymous_user env); [|done]. by rewrite wrap_login_user_proxy_marker.
Qed.

End MarkerFacts.

(** C7. On a submission to /auth/mfa-verify whose token verifies, l.227-228
    remove the pending user name from the session and set the marker to
    true.  When the finalization then runs, [wrap_login_user] writes the
    user name back (l.141): after the request the session holds the user
    name again, with the marker true.  Only when reading [current_user.user]
    for the audit entry raises does the handler stop with the user name
    removed, and then no finalization runs. *)
Theorem mfa_verify_username_written_back env req st username u :
  sess_username (session st) = Some username ->
  lookup_active username st = Some u ->
  token_accepted env req u = true ->
  let st1 := st_token_verified username st in
  let st' := snd (mfa_verify env req st) in
  sess_username (session st1) = None /\
  sess_mfa_verified (session st1) = Some true /\
  (forall who s, current_user_user env st1 = (Ok who, s) ->
     mfa_verify env req st
     = wrap_login_user env req u
         (emit (ev_track_activity (act_mfa_verified who)) st1) /\
     sess_username (session st') = Some (user u) /\
     sess_mfa_verified (session st') = Some true) /\
  (forall e s, current_user_user env st1 = (Raise e, s) ->
     mfa_verify env req st = (Raise e, st1)).
Proof.
  intros H Hu Ht st1 st'. subst st'.
  split; [done|]. split; [done|].
  rewrite (mfa_verify_accepted env req st username u H Hu Ht). cbv zeta.
  fold (st_token_verified username st). fold st1.
  split.
  - intros who s ->. split; [done|].
    split; [apply wrap_login_user_sets_username|].
    by rewrite wrap_login_user_marker.
  - by intros e s ->.
Qed.

Lemma mfa_verify_username_written_back_witness :
  sess_username
    (session (snd (mfa_verify Demo.local_env
                     (Demo.request None "" "" (Some "492039"))
                     (Demo.st_pending "alice" (Some "alice")))))
  = Some "alice" /\
  sess_mfa_verified
    (session (snd (mfa_verify Demo.local_env
                     (Demo.request None "" "" (Some "492039"))
                     (Demo.st_pending "alice" (Some "alice")))))
  = Some true.
Proof.
  pose proof (mfa_verify_username_written_back Demo.local_env
                (Demo.request None "" "" (Some "492039"))
                (Demo.st_pending "alice" (Some "alice")) "alice" Demo.alice
                eq_refl eq_refl eq_refl) as (_ & _ & Hback & _).
  exact (proj2 (Hback "alice" _ eq_refl)).
Defined.

(** The state of that submission is one the module reaches by itself:
    alice logs in with her password, has her token accepted (the handler
    stops on the audit entry, nobody being logged in, and leaves the marker
    true), logs in again, which finalizes, and then submits a token to
    /auth/mfa-verify once more. *)
Example mfa_verify_pending_while_logged_in_reached :
  let st3 :=
    serve Demo.local_env
      [(route_login, Demo.request None "alice" "hash-a" None);
       (route_mfa_verify, Demo.request None "" "" (Some "492039"));
       (route_login, Demo.request None "alice" "hash-a" None)]
      (Demo.st_fresh Demo.two_cases) in
  current_user st3 = Some "alice" /\
  sess_username (session st3) = Some "alice" /\
  token_accepted Demo.local_env (Demo.request None "" "" (Some "492039")) Demo.alice
  = true /\
  sess_username
    (session (snd (mfa_verify Demo.local_env
                     (Demo.request None "" "" (Some "492039")) st3)))
  = Some "alice".
Proof. vm_compute. repeat split; reflexivity. Qed.

(** X16. Only /auth/mfa-verify writes the marker: a request to /login or
    to /auth/mfa-setup leaves [session['mfa_verified']] as it found it,
    set or not, whatever the request and however it ends. *)
Theorem marker_written_by_mfa_verify_only env r req st :
  r <> route_mfa_verify ->
  sess_mfa_verified (session (snd (dispatch env r req st)))
  = sess_mfa_verified (session st).
Proof.
  destruct r; intros Hr; simpl; [apply login_marker | apply mfa_setup_marker | done].
Qed.

Lemma marker_written_by_mfa_verify_only_witness :
  sess_mfa_verified
    (session (snd (dispatch Demo.local_env route_mfa_setup
                     (Demo.request None "" "" (Some "492039"))
                     (Demo.st_pending "bob" (Some "bob")))))
  = Some false.
Proof.
  refine (marker_written_by_mfa_verify_only Demo.local_env route_mfa_setup
            (Demo.request None "" "" (Some "492039"))
            (Demo.st_pending "bob" (Some "bob")) _).
  discriminate.
Defined.

(** X17. A finalization writes nothing to the user table but the case
    context of the user's own row: every other row is as it was, and so
    are the other attributes of that row. *)
Theorem wrap_login_user_row_frame env req u st :
  let st' := snd (wrap_login_user env req u st) in
  (forall k, k <> user u -> users st' !! k = users st !! k) /\
  (users st !! user u = Some u ->
   exists u',
     users st' !! user u = Some u' /\
     user u' = user u /\ password u' = password u /\
     is_service_account u' = is_service_account u /\ active u' = active u /\
     mfa_secrets u' = mfa_secrets u /\ mfa_enabled u' = mfa_enabled u /\
     email u' = email u).
Proof.
  intros st'. subst st'.
  destruct (mfa_not_verified (session st)) eqn:Hg.
  { rewrite wrap_login_user_gate by done. split; [done|]. intros H. by exists u. }
  rewrite wrap_login_user_state by done.
  unfold resolve_case. destruct (ctx_case u).
  { split; [done|]. intros H. by exists u. }
  run. destruct (order_by_case_id_first _) as [c|]; simpl.
  - split.
    + intros k Hk. by rewrite lookup_insert_ne.
    + intros _. eexists. by rewrite lookup_insert_eq.
  - split; [done|]. intros H. by exists u.
Qed.

Lemma wrap_login_user_row_frame_witness :
  users (snd (wrap_login_user Demo.local_env
                (Demo.request None "alice" "hash-a" None)
                Demo.alice (Demo.st_verified Demo.two_cases))) !! "bob"
  = Some Demo.bob.
Proof.
  refine (proj1 (wrap_login_user_row_frame Demo.local_env
            (Demo.request None "alice" "hash-a" None)
            Demo.alice (Demo.st_verified Demo.two_cases)) "bob" _).
  discriminate.
Defined.

(** X18. For a pending user who has no MFA secret, /auth/mfa-verify does
    not look at the request: whatever is submitted, it either raises while
    formatting the audit entry or logs the user in and redirects to
    /auth/mfa-setup. *)
Theorem mfa_verify_not_provisioned env req st username u :
  sess_username (session st) = Some username ->
  lookup_active username st = Some u ->
  Py.not_ (mfa_secrets u) = true ->
  (forall req', mfa_verify env req' st = mfa_verify env req st) /\
  (forall r, fst (mfa_verify env req st) = Ok r ->
     r = redirect (url_for "mfa_setup" None) /\
     current_user (snd (mfa_verify env req st)) = Some (user u) /\
     sess_mfa_verified (session (snd (mfa_verify env req st))) = Some false).
Proof.
  intros Hn Hu Hs.
  assert (Hrun : forall rq, mfa_verify env rq st =
            let st1 := emit (ev_get_active_user_by_login username)
                         (with_session (set_mfa_verified (Some false)) st) in
            match current_user_user env st1 with
            | (Ok who, _) =>
                (Ok (redirect (url_for "mfa_setup" None)),
                 emit (ev_login_user (user u))
                   (mkState (session st1) (session_permanent st1)
                            (Some (user u)) (users st1) (cases st1)
                            (trace st1 ++ [ev_track_activity (act_mfa_required who)])))
            | (Raise e, _) => (Raise e, st1)
            end).
  { intros rq. unfold mfa_verify. run. rewrite Hn. unfold mbind, M_bind.
    rewrite (_retrieve_user_by_username_found _ _ u) by done.
    rewrite Hs. unfold current_user_user. run.
    match goal with |- context [current_user_obj ?s] =>
      destruct (current_user_obj s) end; [done|].
    by destruct (anonymous_user env). }
  split.
  - intros req'. by rewrite !Hrun.
  - intros r. rewrite Hrun. cbv zeta.
    destruct (current_user_user env _) as [[who|e] s]; [|done].
    by intros [= <-].
Qed.

Lemma mfa_verify_not_provisioned_witness :
  mfa_verify Demo.local_env (Demo.request None "" "" (Some "492039"))
    (Demo.st_pending "carol" (Some "carol"))
  = mfa_verify Demo.local_env (Demo.request None "" "" None)
      (Demo.st_pending "carol" (Some "carol")) /\
  fst (mfa_verify Demo.local_env (Demo.request None "" "" None)
         (Demo.st_pending "carol" (Some "carol")))
  = Ok (redirect (url_for "mfa_setup" None)).
Proof.
  pose proof (mfa_verify_not_provisioned Demo.local_env
                (Demo.request None "" "" None)
                (Demo.st_pending "carol" (Some "carol")) "carol" Demo.carol
                eq_refl eq_refl eq_refl) as [Hsame _].
  split; [exact (Hsame _) | reflexivity].
Defined.
